(** * schematrode: the Schematron build cache, compilation batch and
      validation/aggregation engine

    A shallow embedding of [python_schematron/schematron_to_xslt_local.py]
    and [python_schematron/fast_validator.py].

    - Python [str] values are [string]s.  [str.lower], [str.strip] and the
      other text primitives act on the ASCII range; characters outside it
      are carried through unchanged.
    - Python dictionaries with a fixed shape are records whose optional
      keys are [option] fields; dictionaries used as maps are [gmap]s.
    - The Saxon engine, [hashlib.md5] and [ElementTree.fromstring] are
      external collaborators: they are fields of an oracle record.
    - Code that may raise returns a [Result]; [try]/[except] blocks are
      pattern matches on it. *)

From Stdlib Require Import Ascii.
From stdpp Require Import gmap strings list fin_maps pretty.

(** ** Python text primitives *)

Module Py.

Definition lower_char (c : ascii) : ascii :=
  let n := nat_of_ascii c in
  if (65 <=? n) && (n <=? 90) then ascii_of_nat (n + 32) else c.

(** [s.lower()] *)
Fixpoint lower (s : string) : string :=
  match s with
  | EmptyString => EmptyString
  | String c t => String (lower_char c) (lower t)
  end.

(** [s.startswith(p)] *)
Fixpoint startswith (p s : string) : bool :=
  match p, s with
  | EmptyString, _ => true
  | String a p', String b s' => if decide (a = b) then startswith p' s' else false
  | String _ _, EmptyString => false
  end.

(** [needle in hay] *)
Fixpoint contains (needle hay : string) : bool :=
  startswith needle hay ||
  match hay with
  | EmptyString => false
  | String _ t => contains needle t
  end.

(** [any(word in text for word in words)] *)
Definition any_in (words : list string) (text : string) : bool :=
  existsb (λ word, contains word text) words.

(** [s[n:]] *)
Fixpoint drop (n : nat) (s : string) : string :=
  match n, s with
  | O, _ => s
  | S n', String _ t => drop n' t
  | S _, EmptyString => EmptyString
  end.

(** [s[:-1]] *)
Fixpoint drop_last (s : string) : string :=
  match s with
  | EmptyString => EmptyString
  | String c EmptyString => EmptyString
  | String c t => String c (drop_last t)
  end.

(** [s.replace(old, new, 1)] *)
Fixpoint replace_first (old new s : string) : string :=
  if startswith old s then new +:+ drop (String.length old) s
  else match s with
       | EmptyString => EmptyString
       | String c t => String c (replace_first old new t)
       end.

(** [s.count(sub)] for a non-empty [sub]: occurrences are counted left
    to right without overlap.  [fuel] bounds the scan; [String.length s]
    is always enough. *)
Fixpoint count_from (fuel : nat) (sub s : string) : nat :=
  match fuel with
  | O => 0
  | S fuel' =>
      match s with
      | EmptyString => 0
      | String _ t =>
          if startswith sub s
          then S (count_from fuel' sub (drop (String.length sub) s))
          else count_from fuel' sub t
      end
  end.

Definition count (sub s : string) : nat := count_from (String.length s) sub s.

(** Whitespace removed by [str.strip()] (ASCII range). *)
Definition is_space (c : ascii) : bool :=
  let n := nat_of_ascii c in
  ((9 <=? n) && (n <=? 13)) || ((28 <=? n) && (n <=? 32)).

Fixpoint lstrip (s : string) : string :=
  match s with
  | EmptyString => EmptyString
  | String c t => if is_space c then lstrip t else s
  end.

Fixpoint rstrip (s : string) : string :=
  match s with
  | EmptyString => EmptyString
  | String c t =>
      match rstrip t with
      | EmptyString => if is_space c then EmptyString else String c EmptyString
      | t' => String c t'
      end
  end.

(** [s.strip()] *)
Definition strip (s : string) : string := rstrip (lstrip s).

(** [s.split(sep)] for a one-character separator: never empty. *)
Fixpoint split (sep : ascii) (s : string) : list string :=
  match s with
  | EmptyString => [EmptyString]
  | String c t =>
      if decide (c = sep) then EmptyString :: split sep t
      else match split sep t with
           | [] => [String c EmptyString]
           | w :: ws => String c w :: ws
           end
  end.

End Py.

(** ** Exceptions *)

(** A computation that either returns or raises a Python exception. *)
Inductive Result (A : Type) : Type :=
  | Ok (a : A)
  | Raise.
Arguments Ok {A} a.
Arguments Raise {A}.

Global Instance Result_ret : MRet Result := λ A a, Ok a.

Global Instance Result_bind : MBind Result := λ A B k m,
  match m with
  | Ok a => k a
  | Raise => Raise
  end.

(** ** The file system and the external collaborators *)

Module Sys.

(** A file is either readable data or a file that cannot be opened or
    decoded: reading it or writing to it raises. *)
Inductive Node : Type :=
  | Data (content : string)
  | Denied.

Record FS : Type := mkFS {
  files : gmap string Node;
  dirs : gset string
}.

(** [Path.exists()] *)
Definition exists_ (fs : FS) (p : string) : bool :=
  bool_decide (is_Some (files fs !! p)) || bool_decide (p ∈ dirs fs).

(** [open(p).read()] *)
Definition read (fs : FS) (p : string) : Result string :=
  match files fs !! p with
  | Some (Data c) => Ok c
  | _ => Raise
  end.

(** [open(p, 'w').write(c)] *)
Definition write (fs : FS) (p c : string) : Result FS :=
  match files fs !! p with
  | Some Denied => Raise
  | _ => Ok (mkFS (<[p := Data c]> (files fs)) (dirs fs))
  end.

(** [Path.unlink()] *)
Definition unlink (fs : FS) (p : string) : Result FS :=
  match files fs !! p with
  | Some _ => Ok (mkFS (delete p (files fs)) (dirs fs))
  | None => Raise
  end.

(** [Path.mkdir(exist_ok=True)] *)
Definition mkdir (fs : FS) (d : string) : FS :=
  mkFS (files fs) ({[d]} ∪ dirs fs).

(** [shutil.copy2(src, dst)] *)
Definition copy2 (fs : FS) (src dst : string) : Result FS :=
  c ← read fs src; write fs dst c.

(** [Path.stat().st_size] *)
Definition st_size (fs : FS) (p : string) : nat :=
  match files fs !! p with
  | Some (Data c) => String.length c
  | _ => 0
  end.

(** [d / name] *)
Definition join (d name : string) : string := d +:+ "/" +:+ name.

(** Split at the last occurrence of [sep]. *)
Fixpoint rpartition (sep : ascii) (s : string) : option (string * string) :=
  match s with
  | EmptyString => None
  | String c t =>
      match rpartition sep t with
      | Some (a, b) => Some (String c a, b)
      | None => if decide (c = sep) then Some (EmptyString, t) else None
      end
  end.

(** [Path.name] *)
Definition name (p : string) : string :=
  match rpartition "/" p with
  | Some (_, n) => n
  | None => p
  end.

(** [Path.stem]: the name without its last suffix. *)
Definition stem (p : string) : string :=
  let n := name p in
  match rpartition "." n with
  | Some (String a r, String b t) => String a r
  | _ => n
  end.

(** [s.endswith(suffix)] *)
Definition endswith (suffix s : string) : bool :=
  Py.startswith (String.rev suffix) (String.rev s).

(** [d.glob("*" + suffix)]: the entries directly under [d] whose name
    ends with [suffix]. *)
Definition glob_match (d suffix p : string) : bool :=
  Py.startswith (d +:+ "/") p &&
  let n := Py.drop (String.length (d +:+ "/")) p in
  negb (Py.contains "/" n) && endswith suffix n.

Definition glob (fs : FS) (d suffix : string) : list string :=
  filter (λ p, glob_match d suffix p = true) (map fst (map_to_list (files fs))).

(** Handles of compiled stylesheets. *)
Definition Exe : Type := nat.

(** [compile_stylesheet(stylesheet_file=...)] returns an executable,
    returns a falsy value, or raises. *)
Inductive CompileOutcome : Type :=
  | Compiled (x : Exe)
  | CompileFalsy
  | CompileRaises.

(** [transform_to_file(source_file=..., output_file=...)] raises, or
    returns having written [written] (if any) to the output file and
    leaving the processor's [exception_occurred] flag as given. *)
Inductive FileOutcome : Type :=
  | FileRaises
  | FileReturns (written : option string) (exception_occurred : bool).

(** [transform_to_string(source_file=...)] *)
Inductive StringOutcome : Type :=
  | StringRaises
  | StringReturns (output : string) (exception_occurred : bool).

(** [xml.etree.ElementTree] elements; tags are in Clark notation. *)
#[warnings="-register-all"]
Inductive Element : Type :=
  | Elem (tag : string) (attrib : gmap string string)
         (text : option string) (children : list Element).

(** The collaborators outside the repository. *)
Record Extern : Type := mkExtern {
  md5 : string → string;
  now : N;
  compile_stylesheet : FS → string → CompileOutcome;
  transform_to_file : Exe → FS → string → string → FileOutcome;
  transform_to_string : Exe → FS → string → StringOutcome;
  fromstring : string → option Element
}.

End Sys.

(** ** schematron_to_xslt_local.py: [SchematronToXSLTTransformer] *)

Module Transformer.
Import Sys.

Definition base_dir : string := "sch_to_xsl_transformers".
Definition schematron_dir : string := "Schematron".
Definition output_dir : string := "xslt_schematron".
Definition cache_dir : string := ".cache".
Definition temp_dir : string := ".temp".

Definition iso_dsdl_include : string := join base_dir "iso_dsdl_include.xsl".
Definition iso_abstract_expand : string := join base_dir "iso_abstract_expand.xsl".
Definition iso_svrl_for_xslt2 : string := join base_dir "iso_svrl_for_xslt2.xsl".

Definition cache_file (sch_file : string) : string :=
  join cache_dir (stem sch_file +:+ ".cache").
Definition output_file (sch_file : string) : string :=
  join output_dir (stem sch_file +:+ ".xsl").
Definition temp_output (n : string) (sch_file : string) : string :=
  join temp_dir (stem sch_file +:+ "_step" +:+ n +:+ ".xml").

Definition check_requirements (fs : FS) : bool :=
  forallb (exists_ fs) [iso_dsdl_include; iso_abstract_expand; iso_svrl_for_xslt2]
  && exists_ fs schematron_dir.

(** The digest of the file's bytes; raises when it cannot be opened. *)
Definition calculate_file_hash (X : Extern) (fs : FS) (file_path : string)
  : Result string :=
  bytes ← read fs file_path; Ok (md5 X bytes).

(** The cache record as a dictionary: keys ["hash"] and ["timestamp"],
    or empty. *)
Definition get_cache_info (fs : FS) (sch_file : string) : gmap string string :=
  if exists_ fs (cache_file sch_file) then
    match read fs (cache_file sch_file) with
    | Ok text =>
        match Py.split "010" (Py.strip text) with
        | l0 :: l1 :: _ => <["hash" := l0]> (<["timestamp" := l1]> ∅)
        | _ => ∅
        end
    | Raise => ∅
    end
  else ∅.

(** A failed write is a warning; the file system is then unchanged. *)
Definition save_cache_info (X : Extern) (fs : FS) (sch_file file_hash : string) : FS :=
  match write fs (cache_file sch_file)
          (file_hash +:+ String "010" (pretty (now X) +:+ String "010" "")) with
  | Ok fs' => fs'
  | Raise => fs
  end.

Definition needs_transformation (X : Extern) (fs : FS) (sch_file : string)
  : Result bool :=
  if negb (exists_ fs (output_file sch_file)) then Ok true
  else
    current_hash ← calculate_file_hash X fs sch_file;
    let cache_info := get_cache_info fs sch_file in
    if bool_decide (cache_info !! "hash" ≠ Some current_hash) then Ok true
    else Ok false.

Definition run_xslt_transformation (X : Extern) (fs : FS)
    (source_file xsl_file out_file : string) : bool * FS :=
  match compile_stylesheet X fs xsl_file with
  | CompileRaises => (false, fs)
  | CompileFalsy => (false, fs)
  | Compiled xslt_executable =>
      match transform_to_file X xslt_executable fs source_file out_file with
      | FileRaises => (false, fs)
      | FileReturns written exception_occurred =>
          let fs' :=
            match written with
            | Some c => mkFS (<[out_file := Data c]> (files fs)) (dirs fs)
            | None => fs
            end in
          (negb exception_occurred, fs')
      end
  end.

(** [re.search(r'(<(?:xsl:)?stylesheet[^>]*?)>', content)].

    [until_gt] is the lazy [[^>]*?] followed by [>]: the text up to and
    including the first [>], and what follows it. *)
Fixpoint until_gt (s : string) : option (string * string) :=
  match s with
  | EmptyString => None
  | String c t =>
      if decide (c = ">"%char) then Some (String c EmptyString, t)
      else match until_gt t with
           | Some (m, r) => Some (String c m, r)
           | None => None
           end
  end.

(** The pattern anchored at the head of [s]: the matched text
    ([match.group(0)]) and the text after it. *)
Definition match_root_at (s : string) : option (string * string) :=
  let attempt (opening : string) :=
    if Py.startswith opening s then
      match until_gt (Py.drop (String.length opening) s) with
      | Some (m, r) => Some (opening +:+ m, r)
      | None => None
      end
    else None in
  match attempt "<xsl:stylesheet" with
  | Some x => Some x
  | None => attempt "<stylesheet"
  end.

(** The leftmost match: the text before it, the match, the text after. *)
Fixpoint search_root (s : string) : option (string * string * string) :=
  match match_root_at s with
  | Some (m, r) => Some (EmptyString, m, r)
  | None =>
      match s with
      | EmptyString => None
      | String c t =>
          match search_root t with
          | Some (b, m, r) => Some (String c b, m, r)
          | None => None
          end
      end
  end.

Definition xsd_declaration : string :=
  " xmlns:xsd=" +:+ String "034" ("http://www.w3.org/2001/XMLSchema" +:+ String "034" ">").

(** The text of [add_missing_xsd_namespace] between the read and the
    write: the new content, when there is one to write. *)
Definition repaired_content (content : string) : option string :=
  if Py.contains "xmlns:xsd=" content then None
  else
    match search_root content with
    | Some (_, old_tag, _) =>
        let new_tag := Py.drop_last old_tag +:+ xsd_declaration in
        Some (Py.replace_first old_tag new_tag content)
    | None => None
    end.

Definition add_missing_xsd_namespace (fs : FS) (xsl_file : string) : bool * FS :=
  match read fs xsl_file with
  | Raise => (false, fs)
  | Ok content =>
      match repaired_content content with
      | None => (false, fs)
      | Some content' =>
          match write fs xsl_file content' with
          | Ok fs' => (true, fs')
          | Raise => (false, fs)
          end
      end
  end.

(** One iteration of the clean-up loop over the intermediate files. *)
Definition remove_temp (fs : FS) (temp_file : string) : FS :=
  if exists_ fs temp_file then
    match unlink fs temp_file with
    | Ok fs' => fs'
    | Raise => fs
    end
  else fs.

(** [compare_step_files] only prints and is left out. *)
Definition transform_schematron_file (X : Extern) (fs : FS) (sch_file : string)
  : bool * FS :=
  let fs := mkdir fs temp_dir in
  let temp_output1 := temp_output "1" sch_file in
  let temp_output2 := temp_output "2" sch_file in
  let temp_output3 := temp_output "3" sch_file in
  let '(ok1, fs) := run_xslt_transformation X fs sch_file iso_dsdl_include temp_output1 in
  if negb ok1 then (false, fs) else
  let '(ok2, fs) := run_xslt_transformation X fs temp_output1 iso_abstract_expand temp_output2 in
  if negb ok2 then (false, fs) else
  let '(ok3, fs) := run_xslt_transformation X fs temp_output2 iso_svrl_for_xslt2 temp_output3 in
  if negb ok3 then (false, fs) else
  let output_xsl_path := output_file sch_file in
  match (if exists_ fs output_xsl_path then unlink fs output_xsl_path else Ok fs) with
  | Raise => (false, fs)
  | Ok fs =>
      let fs := mkdir fs output_dir in
      match copy2 fs temp_output3 output_xsl_path with
      | Raise => (false, fs)
      | Ok fs =>
          let fs := snd (add_missing_xsd_namespace fs output_xsl_path) in
          match calculate_file_hash X fs sch_file with
          | Raise => (false, fs)
          | Ok file_hash =>
              let fs := save_cache_info X fs sch_file file_hash in
              (true, foldl remove_temp fs [temp_output1; temp_output2; temp_output3])
          end
      end
  end.

Definition validate_output (fs : FS) (sch_file : string) : bool :=
  let output_result := output_file sch_file in
  if negb (exists_ fs output_result) then false
  else
    match read fs output_result with
    | Raise => false
    | Ok content =>
        if negb (Py.contains "<xsl:stylesheet" content)
           && negb (Py.contains "<stylesheet" content) then false
        else if Py.count "<xsl:template" content =? 0 then false
        else true
    end.

(** How one rule source ended in the batch. *)
Inductive Outcome : Type := Skipped | Built | Failed.

Definition succeeded (o : Outcome) : bool :=
  match o with
  | Failed => false
  | _ => true
  end.

(** The body of the batch loop for one source.  The result of
    [validate_output] is not used by the batch. *)
Definition transform_one (X : Extern) (force_rebuild : bool) (fs : FS)
    (sch_file : string) : Result (Outcome * FS) :=
  up_to_date ←
    (if force_rebuild then Ok false
     else needed ← needs_transformation X fs sch_file; Ok (negb needed));
  if (up_to_date : bool) then Ok (Skipped, fs)
  else
    let '(ok, fs') := transform_schematron_file X fs sch_file in
    if ok then
      let _ := validate_output fs' sch_file in
      Ok (Built, fs')
    else Ok (Failed, fs').

(** The batch loop: [success_count], the file system, and (for stating
    properties) how each source ended, in order. *)
Fixpoint transform_loop (X : Extern) (force_rebuild : bool) (fs : FS)
    (sch_files : list string) (success_count : nat)
  : Result (nat * list Outcome * FS) :=
  match sch_files with
  | [] => Ok (success_count, [], fs)
  | sch_file :: rest =>
      '(o, fs') ← transform_one X force_rebuild fs sch_file;
      '(n, os, fs'') ←
        transform_loop X force_rebuild fs' rest
          (if succeeded o then S success_count else success_count);
      Ok (n, o :: os, fs'')
  end.

Definition transform_all_schematron_files (X : Extern) (fs : FS)
    (force_rebuild : bool) : Result (bool * FS) :=
  if negb (check_requirements fs) then Ok (false, fs)
  else
    let sch_files := glob fs schematron_dir ".sch" in
    match sch_files with
    | [] => Ok (false, fs)
    | _ =>
        let total_files := length sch_files in
        '(success_count, _, fs') ← transform_loop X force_rebuild fs sch_files 0;
        Ok (success_count =? total_files, fs')
    end.

End Transformer.

(** ** fast_validator.py: [FastSchematronValidator]

    Wall-clock fields (['time'], ['total_time'], the time statistics) and
    progress lines are left out; the console keeps the warnings and
    errors. *)

Module Validator.
Import Sys.

Inductive Diagnostic : Type :=
  | XsltFileNotFound (xsl_file : string)
  | FailedToCompileXslt (xsl_file : string)
  | ErrorCompilingXslt (xsl_file : string)
  | CouldNotParseSvrl
  | FailedToCreateJson.

(** The calls made to the engine, latest first. *)
Inductive EngineCall : Type :=
  | CompileStylesheet (stylesheet_file : string)
  | TransformToString (x : Exe) (source_file : string).

(** *** The result of one stylesheet run: the [result] dictionary *)

Record ErrorDetail : Type := mkErrorDetail {
  location : string;
  test : string;
  message : option string;
  severity : string;
  role : string;
  rule_id : option string
}.

Inductive RunError : Type :=
  | XsltNotFound
  | CompileFailed
  | TransformationFailed
  | Exception.

Record XsltResult : Type := mkXsltResult {
  xslt_file : string;
  success : bool;
  svrl_output : option string;
  fired_rules : option nat;
  failed_assertions : option nat;
  successful_reports : option nat;
  error : option RunError;
  severity_breakdown : option (gmap string nat);
  error_details : option (list ErrorDetail)
}.

(** The [results] dictionary of one validated document. *)
Module Doc.
Record t : Type := mk {
  xml_file : string;
  file_size : nat;
  xslt_results : list XsltResult;
  success : bool;
  total_fired_rules : nat;
  total_failed_assertions : nat;
  total_successful_reports : nat
}.
End Doc.

(** What [validate_xml_file] returns: the two-key failure dictionary
    of a missing document, or the [results] dictionary. *)
Inductive Validation : Type :=
  | NotFound (xml_file : string)
  | Validated (results : Doc.t).

(** The JSON report; ["validation_metadata"] and ["overall_summary"]
    are flattened into the report record. *)
Module Json.
Record SchematronResult : Type := mkSchematronResult {
  schematron_name : string;
  xslt_file : string;
  rules_fired : nat;
  failed_assertions : nat;
  successful_reports : nat;
  severity_breakdown : gmap string nat;
  errors : list ErrorDetail
}.

Record t : Type := mk {
  xml_file : string;
  xml_filename : string;
  file_size_bytes : nat;
  total_xslt_files_processed : nat;
  validation_success : bool;
  total_rules_fired : nat;
  total_failed_assertions : nat;
  total_successful_reports : nat;
  is_valid : bool;
  overall_severity_breakdown : gmap string nat;
  schematron_results : list SchematronResult
}.
End Json.

(** The validator object: [xslt_cache], [stats], the report files in
    its results directory, and what it has sent to the engine and to
    the console. *)
Record State : Type := mkState {
  xslt_cache : gmap string Exe;
  cache_hits : nat;
  total_validations : nat;
  largest_file_size : nat;
  json_files : gmap string Json.t;
  engine_calls : list EngineCall;
  console : list Diagnostic
}.

Definition init : State := mkState ∅ 0 0 0 ∅ [] [].

Definition print (d : Diagnostic) (st : State) : State :=
  mkState (xslt_cache st) (cache_hits st) (total_validations st)
          (largest_file_size st) (json_files st) (engine_calls st) (d :: console st).

Definition call (c : EngineCall) (st : State) : State :=
  mkState (xslt_cache st) (cache_hits st) (total_validations st)
          (largest_file_size st) (json_files st) (c :: engine_calls st) (console st).

Definition get_compiled_xslt (X : Extern) (fs : FS) (st : State) (xsl_file : string)
  : option Exe * State :=
  let cache_key := xsl_file in
  match xslt_cache st !! cache_key with
  | Some x =>
      (Some x,
       mkState (xslt_cache st) (S (cache_hits st)) (total_validations st)
               (largest_file_size st) (json_files st) (engine_calls st) (console st))
  | None =>
      if negb (exists_ fs xsl_file) then (None, print (XsltFileNotFound xsl_file) st)
      else
        let st := call (CompileStylesheet xsl_file) st in
        match compile_stylesheet X fs xsl_file with
        | Compiled xslt_executable =>
            (Some xslt_executable,
             mkState (<[cache_key := xslt_executable]> (xslt_cache st)) (cache_hits st)
                     (total_validations st) (largest_file_size st) (json_files st)
                     (engine_calls st) (console st))
        | CompileFalsy => (None, print (FailedToCompileXslt xsl_file) st)
        | CompileRaises => (None, print (ErrorCompilingXslt xsl_file) st)
        end
  end.

Definition severities : list string := ["fatal"; "error"; "warning"; "info"].

Definition _determine_severity (role message test : string) : string :=
  let role_lower := Py.lower role in
  if bool_decide (role_lower ∈ severities) then role_lower
  else
    let message_lower := Py.lower message in
    if Py.any_in ["fatal"; "critical"; "must not"; "required"] message_lower then "fatal"
    else if Py.any_in ["error"; "invalid"; "violation"; "shall not"] message_lower then "error"
    else if Py.any_in ["warning"; "should"; "recommend"] message_lower then "warning"
    else if Py.any_in ["info"; "information"; "note"] message_lower then "info"
    else
      let test_lower := Py.lower test in
      if Py.contains "not(" test_lower || Py.contains "false()" test_lower then "error"
      else "error".

(** *** Element trees *)

Definition tag (e : Element) : string := match e with Elem t _ _ _ => t end.
Definition attrib (e : Element) : gmap string string := match e with Elem _ a _ _ => a end.
Definition text (e : Element) : option string := match e with Elem _ _ x _ => x end.
Definition children (e : Element) : list Element := match e with Elem _ _ _ c => c end.

(** The elements below [e], in document order. *)
Fixpoint descendants (e : Element) : list Element :=
  match e with
  | Elem _ _ _ cs =>
      (fix below (l : list Element) : list Element :=
         match l with
         | [] => []
         | c :: l' => c :: descendants c ++ below l'
         end) cs
  end.

(** [e.findall('.//' + t, ns)] *)
Definition findall (e : Element) (t : string) : list Element :=
  filter (λ d, tag d = t) (descendants e).

(** [e.find(t, ns)] *)
Definition find (e : Element) (t : string) : option Element :=
  head (filter (λ c, tag c = t) (children e)).

Definition svrl (local : string) : string :=
  "{http://purl.oclc.org/dsdl/svrl}" +:+ local.

Definition zero_breakdown : gmap string nat :=
  <["fatal" := 0]> (<["error" := 0]> (<["warning" := 0]> (<["info" := 0]> ∅))).

(** [breakdown[severity] += 1], with the fallback to ['error']. *)
Definition count_severity (breakdown : gmap string nat) (severity : string)
  : gmap string nat :=
  if bool_decide (severity ∈ dom breakdown) then alter S severity breakdown
  else alter S "error" breakdown.

(** The body of the loop over the failed assertions. *)
Definition error_detail (assertion : Element) : ErrorDetail :=
  let location := default "Unknown" (attrib assertion !! "location") in
  let test := default "Unknown" (attrib assertion !! "test") in
  let role := default "error" (attrib assertion !! "role") in
  let message :=
    match find assertion (svrl "text") with
    | Some text_elem => text text_elem
    | None => Some "No message"
    end in
  let message_or :=
    match message with
    | Some (String c m) => String c m
    | _ => "No message"
    end in
  let severity := _determine_severity role message_or test in
  mkErrorDetail location test message severity role
    (match find assertion (svrl "rule") with
     | Some rule_elem => Some (default "Unknown" (attrib rule_elem !! "id"))
     | None => None
     end).

Definition _analyze_svrl_output (X : Extern) (st : State) (svrl_output : string)
    (result : XsltResult) : XsltResult * State :=
  match fromstring X svrl_output with
  | None => (result, print CouldNotParseSvrl st)
  | Some root =>
      let fired := findall root (svrl "fired-rule") in
      let failed := findall root (svrl "failed-assert") in
      let reports := findall root (svrl "successful-report") in
      let '(breakdown, details) :=
        foldl (λ '(breakdown, details) assertion,
                 let d := error_detail assertion in
                 (count_severity breakdown (severity d), details ++ [d]))
              (zero_breakdown, []) failed in
      (mkXsltResult (xslt_file result) (success result) (Validator.svrl_output result)
         (Some (length fired)) (Some (length failed)) (Some (length reports))
         (error result) (Some breakdown)
         (match failed with
          | [] => error_details result
          | _ => Some details
          end),
       st)
  end.

Definition with_error (e : RunError) (result : XsltResult) : XsltResult :=
  mkXsltResult (xslt_file result) (success result) (svrl_output result)
    (fired_rules result) (failed_assertions result) (successful_reports result)
    (Some e) (severity_breakdown result) (error_details result).

Definition _validate_against_xslt (X : Extern) (fs : FS) (st : State)
    (xml_file xsl_file : string) : XsltResult * State :=
  let result :=
    mkXsltResult xsl_file false (Some "") (Some 0) (Some 0) (Some 0) None None None in
  let '(xslt_executable, st) := get_compiled_xslt X fs st xsl_file in
  match xslt_executable with
  | None => (with_error CompileFailed result, st)
  | Some x =>
      let st := call (TransformToString x xml_file) st in
      match transform_to_string X x fs xml_file with
      | StringRaises => (with_error Exception result, st)
      | StringReturns output exception_occurred =>
          if exception_occurred then (with_error TransformationFailed result, st)
          else
            let result :=
              mkXsltResult xsl_file true (Some output) (Some 0) (Some 0) (Some 0)
                           None None None in
            _analyze_svrl_output X st output result
      end
  end.

(** [overall[severity] += count] for every item of [breakdown] whose
    key is in [overall]. *)
Definition add_breakdown (overall breakdown : gmap string nat) : gmap string nat :=
  map_fold (λ severity count overall,
              if bool_decide (severity ∈ dom overall)
              then alter (λ n, n + count) severity overall
              else overall)
           overall breakdown.

(** The report entry of one successful run.  A missing key raises. *)
Definition schematron_result (xslt_result : XsltResult)
  : option Json.SchematronResult :=
  rules_fired ← fired_rules xslt_result;
  failed ← failed_assertions xslt_result;
  reports ← successful_reports xslt_result;
  let breakdown := default ∅ (severity_breakdown xslt_result) in
  let errors :=
    map (λ e, mkErrorDetail (location e) (test e) (message e) (severity e)
                (role e) (rule_id e))
        (default [] (error_details xslt_result)) in
  Some (Json.mkSchematronResult (stem (xslt_file xslt_result)) (xslt_file xslt_result)
          rules_fired failed reports breakdown errors).

(** The report built by [_create_json_result]; [None] when building it
    raises (the exception is caught and only warned about). *)
Definition json_result (xml_file : string) (validation_result : Doc.t)
  : option Json.t :=
  '(overall, entries) ←
    foldl (λ acc xslt_result,
             '(overall, entries) ← acc;
             if negb (success xslt_result) then Some (overall, entries)
             else
               entry ← schematron_result xslt_result;
               Some (add_breakdown overall (Json.severity_breakdown entry),
                     entries ++ [entry]))
          (Some (zero_breakdown, [])) (Doc.xslt_results validation_result);
  Some (Json.mk xml_file (name xml_file)
          (Doc.file_size validation_result)
          (length (Doc.xslt_results validation_result))
          (Doc.success validation_result)
          (Doc.total_fired_rules validation_result)
          (Doc.total_failed_assertions validation_result)
          (Doc.total_successful_reports validation_result)
          (Doc.success validation_result
           && (Doc.total_failed_assertions validation_result =? 0))
          overall entries).

Definition json_filename (xml_file : string) : string :=
  stem xml_file +:+ "_validation_result.json".

Definition _create_json_result (st : State) (xml_file : string)
    (validation_result : Doc.t) : State :=
  match json_result xml_file validation_result with
  | Some report =>
      mkState (xslt_cache st) (cache_hits st) (total_validations st)
              (largest_file_size st)
              (<[stem xml_file +:+ "_validation_result.json" := report]> (json_files st))
              (engine_calls st) (console st)
  | None => print FailedToCreateJson st
  end.

(** The body of the loop over the stylesheets. *)
Definition validate_step (X : Extern) (fs : FS) (xml_file : string)
    (acc : Doc.t * State) (xsl_file : string) : Doc.t * State :=
  let '(results, st) := acc in
  if negb (exists_ fs xsl_file) then
    let result :=
      mkXsltResult xsl_file false None None None None (Some XsltNotFound) None None in
    (Doc.mk (Doc.xml_file results) (Doc.file_size results)
            (Doc.xslt_results results ++ [result]) false
            (Doc.total_fired_rules results) (Doc.total_failed_assertions results)
            (Doc.total_successful_reports results),
     st)
  else
    let '(result, st) := _validate_against_xslt X fs st xml_file xsl_file in
    let xslt_results := Doc.xslt_results results ++ [result] in
    if success result then
      (Doc.mk (Doc.xml_file results) (Doc.file_size results) xslt_results
              (Doc.success results)
              (Doc.total_fired_rules results + default 0 (fired_rules result))
              (Doc.total_failed_assertions results + default 0 (failed_assertions result))
              (Doc.total_successful_reports results
               + default 0 (successful_reports result)),
       st)
    else
      (Doc.mk (Doc.xml_file results) (Doc.file_size results) xslt_results false
              (Doc.total_fired_rules results) (Doc.total_failed_assertions results)
              (Doc.total_successful_reports results),
       st).

Definition validate_xml_file (X : Extern) (fs : FS) (st : State)
    (xml_file : string) (xsl_files : list string) : Validation * State :=
  if negb (exists_ fs xml_file) then (NotFound xml_file, st)
  else
    let file_size := st_size fs xml_file in
    let st :=
      mkState (xslt_cache st) (cache_hits st) (total_validations st)
              (largest_file_size st `max` file_size) (json_files st)
              (engine_calls st) (console st) in
    let '(results, st) :=
      foldl (validate_step X fs xml_file)
            (Doc.mk xml_file file_size [] true 0 0 0, st) xsl_files in
    let st :=
      mkState (xslt_cache st) (cache_hits st) (S (total_validations st))
              (largest_file_size st) (json_files st) (engine_calls st) (console st) in
    (Validated results, _create_json_result st xml_file results).

Definition ensure_xslt_generated (X : Extern) (fs : FS) (force_rebuild : bool)
  : Result (bool * FS) :=
  Transformer.transform_all_schematron_files X fs force_rebuild.

(** [r['success'] and r['total_failed_assertions'] == 0] *)
Definition valid (r : Validation) : bool :=
  match r with
  | NotFound _ => false
  | Validated results =>
      Doc.success results && (Doc.total_failed_assertions results =? 0)
  end.

(** [_print_final_summary] only prints and is left out. *)
Definition validate_samples (X : Extern) (fs : FS) (st : State)
    (samples_dir : string) (force_rebuild : bool)
  : Result (list Validation * FS * State) :=
  '(generated, fs) ← ensure_xslt_generated X fs force_rebuild;
  if negb generated then Ok ([], fs, st)
  else
    let xsl_files := glob fs Transformer.output_dir ".xsl" in
    match xsl_files with
    | [] => Ok ([], fs, st)
    | _ =>
        if negb (exists_ fs samples_dir) then Ok ([], fs, st)
        else
          let xml_files := glob fs samples_dir ".xml" in
          match xml_files with
          | [] => Ok ([], fs, st)
          | _ =>
              let '(all_results, st) :=
                foldl (λ '(all_results, st) xml_file,
                         let '(results, st) :=
                           validate_xml_file X fs st xml_file xsl_files in
                         (all_results ++ [results], st))
                      ([], st) xml_files in
              Ok (all_results, fs, st)
          end
    end.

(** The exit status of [main]: [single_file] is [--single-file]. *)
Definition main (X : Extern) (fs : FS) (single_file : option string)
    (samples_dir : string) (force_rebuild : bool) : nat :=
  let validator := init in
  match single_file with
  | Some xml_file =>
      match ensure_xslt_generated X fs force_rebuild with
      | Raise => 1
      | Ok (false, _) => 1
      | Ok (true, fs) =>
          let xsl_files := glob fs Transformer.output_dir ".xsl" in
          match xsl_files with
          | [] => 1
          | _ =>
              let result := fst (validate_xml_file X fs validator xml_file xsl_files) in
              if valid result then 0 else 1
          end
      end
  | None =>
      match validate_samples X fs validator samples_dir force_rebuild with
      | Raise => 1
      | Ok (results, _, _) => if forallb valid results then 0 else 1
      end
  end.

End Validator.

(** ** Sample inputs *)

Module Samples.
Import Sys Validator.

(** A failed assertion without a [role] attribute whose message has a
    warning keyword. *)
Definition unroled_assert : Element :=
  Elem (svrl "failed-assert")
       (<["location" := "/Invoice"]> (<["test" := "cbc:BuyerReference"]> ∅)) None
       [Elem (svrl "text") ∅ (Some "Buyer reference should be provided") []].

(** The same assertion with a role outside the four severities. *)
Definition odd_role_assert : Element :=
  Elem (svrl "failed-assert")
       (<["location" := "/Invoice"]>
          (<["test" := "cbc:BuyerReference"]> (<["role" := "Minor"]> ∅))) None
       [Elem (svrl "text") ∅ (Some "Buyer reference should be provided") []].

Definition report (findings : list Element) : Element :=
  Elem (svrl "schematron-output") ∅ None
       (Elem (svrl "fired-rule") (<["context" := "/Invoice"]> ∅) None [] :: findings).

(** An engine that compiles every stylesheet to handle [7], runs it
    without fault, and whose output parses to [root]. *)
Definition parsing (root : option Element) : Extern :=
  mkExtern (λ bytes, bytes) 0
           (λ _ _, Compiled 7)
           (λ _ _ _ _, FileReturns (Some "<xsl:stylesheet><xsl:template/></xsl:stylesheet>") false)
           (λ _ _ _, StringReturns "svrl" false)
           (λ _, root).

Definition fresh_result (xsl_file : string) : XsltResult :=
  mkXsltResult xsl_file true (Some "svrl") (Some 0) (Some 0) (Some 0) None None None.

Definition failing (msg : string) : Element :=
  Elem (svrl "failed-assert")
       (<["location" := "/Invoice"]> (<["test" := "not(empty(cbc:ID))"]> ∅)) None
       [Elem (svrl "text") ∅ (Some msg) []].

(** Four rule sets: [a.xsl] reports three failed assertions, [b.xsl]
    none, [c.xsl] does not compile, and the output of [d.xsl] does not
    parse. *)
Definition a_xsl : string := "xslt_schematron/a.xsl".
Definition b_xsl : string := "xslt_schematron/b.xsl".
Definition c_xsl : string := "xslt_schematron/c.xsl".
Definition d_xsl : string := "xslt_schematron/d.xsl".
Definition invoice : string := "Samples/invoice.xml".

Definition rule_sets : Extern :=
  mkExtern (λ bytes, bytes) 0
    (λ _ p, if decide (p = a_xsl) then Compiled 1
            else if decide (p = b_xsl) then Compiled 2
            else if decide (p = d_xsl) then Compiled 4
            else CompileFalsy)
    (λ _ _ _ _, FileRaises)
    (λ x _ _, if decide (x = 1) then StringReturns "three" false
              else if decide (x = 2) then StringReturns "none" false
              else StringReturns "garbled" false)
    (λ out, if decide (out = "three")
            then Some (report [failing "ID is required"; failing "Invalid code";
                               failing "Total missing"])
            else if decide (out = "none") then Some (report [])
            else None).

Definition disk : FS :=
  mkFS (<[invoice := Data "<Invoice/>"]>
          (<[a_xsl := Data "a"]> (<[b_xsl := Data "b"]>
             (<[c_xsl := Data "c"]> (<[d_xsl := Data "d"]> ∅))))) ∅.

(** Three rule sources next to the three ISO stylesheets, and an engine
    whose first pipeline stage faults on [a.sch]. *)
Definition sources : FS :=
  mkFS (<["Schematron/a.sch" := Data "<schema id='a'/>"]>
          (<["Schematron/b.sch" := Data "<schema id='b'/>"]>
             (<["Schematron/c.sch" := Data "<schema id='c'/>"]>
                (<[Transformer.iso_dsdl_include := Data "iso"]>
                   (<[Transformer.iso_abstract_expand := Data "iso"]>
                      (<[Transformer.iso_svrl_for_xslt2 := Data "iso"]> ∅))))))
       {["Schematron"]}.

Definition pipeline : Extern :=
  mkExtern (λ bytes, bytes) 1700000000
    (λ _ _, Compiled 7)
    (λ _ _ source _,
       if decide (source = "Schematron/a.sch") then FileReturns None true
       else FileReturns
              (Some "<xsl:stylesheet version='2.0'><xsl:template/></xsl:stylesheet>")
              false)
    (λ _ _ _, StringReturns "none" false)
    (λ _, Some (report [])).

(** An engine that builds every rule source; the built stylesheets
    report one failed assertion on every document. *)
Definition healthy : Extern :=
  mkExtern (λ bytes, bytes) 1700000000
    (λ _ _, Compiled 7)
    (λ _ _ _ _,
       FileReturns
         (Some "<xsl:stylesheet version='2.0'><xsl:template/></xsl:stylesheet>")
         false)
    (λ _ _ _, StringReturns "one" false)
    (λ _, Some (report [failing "ID is required"])).

(** A rule source with its compiled artifact and its cache record; the
    sample digest of a file is its content. *)
Definition a_sch : string := "Schematron/a.sch".

Definition cached (record : Node) : FS :=
  mkFS (<[a_sch := Data "<schema id='a'/>"]>
          (<["xslt_schematron/a.xsl" := Data "<xsl:stylesheet/>"]>
             (<[".cache/a.cache" := record]> ∅)))
       {["Schematron"]}.

Definition record_of (digest : string) : Node :=
  Data (digest +:+ String "010" ("1700000000" +:+ String "010" "")).

End Samples.

(** * Properties *)

Import Sys.

(** ** Vocabulary of the statements *)

Section Vocabulary.
Import Validator.

(** The count read with [result.get(key, 0)]. *)
Definition get0 (count : option nat) : nat := default 0 count.

(** What every [result] dictionary satisfies: a successful run carries
    its three counts, an unsuccessful one counts nothing. *)
Definition run_shape (r : XsltResult) : Prop :=
  (success r = true →
     is_Some (fired_rules r) ∧ is_Some (failed_assertions r)
     ∧ is_Some (successful_reports r))
  ∧ (success r = false →
     get0 (fired_rules r) = 0 ∧ get0 (failed_assertions r) = 0
     ∧ get0 (successful_reports r) = 0).

(** The runs that succeeded. *)
Definition successful (rs : list XsltResult) : list XsltResult :=
  filter (λ r, success r = true) rs.

(** The sum of one count over a list of runs. *)
Definition total (count : XsltResult → option nat) (rs : list XsltResult) : nat :=
  sum_list (map (λ r, get0 (count r)) rs).

(** The count of one severity in a run's breakdown, read as zero when
    the run has no breakdown or the breakdown has no such key. *)
Definition breakdown_count (k : string) (r : XsltResult) : nat :=
  default 0 (default ∅ (severity_breakdown r) !! k).

(** How the entry of the report relates to the run it is made from. *)
Definition entry_of_run (r : XsltResult) (entry : Json.SchematronResult) : Prop :=
  Json.xslt_file entry = xslt_file r
  ∧ Json.rules_fired entry = get0 (fired_rules r)
  ∧ Json.failed_assertions entry = get0 (failed_assertions r)
  ∧ Json.successful_reports entry = get0 (successful_reports r)
  ∧ Json.severity_breakdown entry = default ∅ (severity_breakdown r)
  ∧ Json.errors entry = default [] (error_details r).

(** The two spellings of the opening of the root element that the
    pattern of [add_missing_xsd_namespace] accepts. *)
Definition root_opening (o : string) : Prop :=
  o = "<xsl:stylesheet" ∨ o = "<stylesheet".

(** A text with a root opening tag: one of the openings followed,
    somewhere, by [>]. *)
Definition has_root_tag (content : string) : Prop :=
  ∃ before opening rest,
    content = before +:+ opening +:+ rest
    ∧ root_opening opening ∧ Py.contains ">" rest = true.

(** The inserted declaration without the closing [>] of the tag. *)
Definition xsd_attribute : string :=
  " xmlns:xsd=" +:+ String "034" ("http://www.w3.org/2001/XMLSchema" +:+ String "034" "").



(** A path outside the rule-source directory. *)
Definition outside (p : string) : Prop :=
  Py.startswith (Transformer.schematron_dir +:+ "/") p = false.


End Vocabulary.

(** ** schematron_to_xslt_local.py: [main]

    The command line with the default base directory: [check] is
    [--check], [force] is [--force].  The constructor creates the
    output, cache and scratch directories; any exception ends in exit
    status 1. *)

Module TransformerCli.
Import Sys Transformer.

(** [SchematronToXSLTTransformer.__init__] *)
Definition init (fs : FS) : FS :=
  mkdir (mkdir (mkdir fs output_dir) cache_dir) temp_dir.

(** The loop of [--check] over the rule sources: it raises when the
    status of a source cannot be computed. *)
Fixpoint show_status (X : Extern) (fs : FS) (sch_files : list string)
  : Result (list bool) :=
  match sch_files with
  | [] => Ok []
  | sch_file :: rest =>
      needs_update ← needs_transformation X fs sch_file;
      statuses ← show_status X fs rest;
      Ok (needs_update :: statuses)
  end.

(** The exit status of [main]. *)
Definition main (X : Extern) (fs : FS) (check force : bool) : nat :=
  let fs := init fs in
  if check then
    if check_requirements fs then
      match show_status X fs (glob fs schematron_dir ".sch") with
      | Ok _ => 0
      | Raise => 1
      end
    else 1
  else
    match transform_all_schematron_files X fs force with
    | Ok (success, _) => if success then 0 else 1
    | Raise => 1
    end.

End TransformerCli.

(** ** Further sample inputs *)

Module MoreSamples.
Import Sys.



(** A stylesheet without the declaration, one without a root tag, and
    a path with no file. *)
Definition stylesheets : FS :=
  mkFS (<["xslt_schematron/a.xsl" := Data "<xsl:stylesheet version='2.0'><xsl:template/></xsl:stylesheet>"]>
          (<["xslt_schematron/b.xsl" := Data "<xsl:transform/>"]> ∅)) ∅.




End MoreSamples.

(** ** Vocabulary of the further statements *)

Section MoreVocabulary.
Import Validator.

(** A text without any of the characters that [str.strip] removes. *)
Fixpoint spaceless (s : string) : bool :=
  match s with
  | EmptyString => true
  | String c t => negb (Py.is_space c) && spaceless t
  end.

(** The sum of the four counts of a severity histogram. *)
Definition histogram_sum (breakdown : gmap string nat) : nat :=
  sum_list (map (λ k, default 0 (breakdown !! k)) severities).

(** A run whose histogram adds up to its failed assertions. *)
Definition balanced (r : XsltResult) : Prop :=
  histogram_sum (default ∅ (severity_breakdown r)) = get0 (failed_assertions r).


(** What holds of every run of a validated document. *)
Definition sound_run (r : XsltResult) : Prop :=
  (success r = false ↔ is_Some (error r)) ∧ balanced r.

(** What a step leaves alone in the validator: the statistics other
    than the hit counter, and the report files. *)
Definition same_books (st st' : State) : Prop :=
  total_validations st' = total_validations st
  ∧ largest_file_size st' = largest_file_size st
  ∧ json_files st' = json_files st.

(** What a step may only add to: the executable cache, the hit
    counter, the engine calls and the console. *)
Definition grows (st st' : State) : Prop :=
  xslt_cache st ⊆ xslt_cache st'
  ∧ cache_hits st ≤ cache_hits st'
  ∧ (∃ new, engine_calls st' = new ++ engine_calls st)
  ∧ (∃ said, console st' = said ++ console st).

(** The engine calls that compile a stylesheet. *)
Definition is_compile (c : EngineCall) : bool :=
  match c with
  | CompileStylesheet _ => true
  | TransformToString _ _ => false
  end.

Definition compile_calls (calls : list EngineCall) : list EngineCall :=
  filter (λ c, is_compile c = true) calls.

(** The paths that the compilation of a rule source may write:
    its three intermediates, its artifact and its cache record. *)
Definition written_by (sch_file : string) : list string :=
  [Transformer.temp_output "1" sch_file; Transformer.temp_output "2" sch_file;
   Transformer.temp_output "3" sch_file; Transformer.output_file sch_file;
   Transformer.cache_file sch_file].

(** The intermediates and the artifact of a rule source. *)
Definition built_by (sch_file : string) : list string :=
  [Transformer.temp_output "1" sch_file; Transformer.temp_output "2" sch_file;
   Transformer.temp_output "3" sch_file; Transformer.output_file sch_file].

(** The files outside [ps] are the same in [fs'] as in [fs], no
    directory is removed, and at most the scratch and the output
    directory are created. *)
Definition confined (ps : list string) (fs fs' : FS) : Prop :=
  (∀ q, q ∉ ps → files fs' !! q = files fs !! q)
  ∧ dirs fs ⊆ dirs fs'
  ∧ dirs fs' ⊆ {[Transformer.temp_dir; Transformer.output_dir]} ∪ dirs fs.

(** A non-empty text without white space, as a hexadecimal digest is. *)
Definition word (s : string) : Prop := s ≠ "" ∧ spaceless s = true.

End MoreVocabulary.

(** ** Severity classification *)

Section Severity.
Import Validator.

Lemma severity_literals :
  "fatal" ∈ severities ∧ "error" ∈ severities
  ∧ "warning" ∈ severities ∧ "info" ∈ severities.
Proof. unfold severities. rewrite !elem_of_cons. auto 10. Qed.

Lemma determine_severity_of_role (role message test : string) :
  Py.lower role ∈ severities →
  _determine_severity role message test = Py.lower role.
Proof. intros H. unfold _determine_severity. by rewrite bool_decide_true. Qed.

(** The loop over the failed assertions appends one detail per
    assertion, in order. *)
Lemma analyze_loop (failed : list Element) breakdown details :
  snd (foldl (λ '(breakdown, details) assertion,
                let d := error_detail assertion in
                (count_severity breakdown (severity d), details ++ [d]))
             (breakdown, details) failed)
  = details ++ map error_detail failed.
Proof.
  revert breakdown details.
  induction failed as [|a failed IH]; intros breakdown details; simpl.
  - by rewrite app_nil_r.
  - rewrite IH. by rewrite <- app_assoc.
Qed.

Lemma analyze_error_details X st out result root :
  fromstring X out = Some root →
  findall root (svrl "failed-assert") ≠ [] →
  error_details (fst (_analyze_svrl_output X st out result))
  = Some (map error_detail (findall root (svrl "failed-assert"))).
Proof.
  intros Hroot Hne. unfold _analyze_svrl_output. rewrite Hroot.
  pose proof (analyze_loop (findall root (svrl "failed-assert")) zero_breakdown [])
    as Hloop.
  destruct (foldl _ _ _) as [breakdown details]. simpl in *. subst details.
  by destruct (findall root (svrl "failed-assert")).
Qed.

End Severity.

Section SeverityChain.
Import Validator.

(** C2. [_determine_severity] always returns one of the four
    severities; a role that is one of them once lowercased is returned
    (lowercased) whatever the message and test; otherwise the first of
    the keyword sets fatal, error, warning, info that has a word inside
    the lowercased message decides; otherwise the result is error, with
    or without a negation form in the test. *)
Theorem determine_severity_chain (role message test : string) :
  let result := _determine_severity role message test in
  let m := Py.lower message in
  let t := Py.lower test in
  result ∈ severities
  ∧ (Py.lower role ∈ severities → result = Py.lower role)
  ∧ _determine_severity "warning" message test = "warning"
  ∧ (Py.lower role ∉ severities →
       (Py.any_in ["fatal"; "critical"; "must not"; "required"] m = true →
          result = "fatal")
     ∧ (Py.any_in ["fatal"; "critical"; "must not"; "required"] m = false →
        Py.any_in ["error"; "invalid"; "violation"; "shall not"] m = true →
          result = "error")
     ∧ (Py.any_in ["fatal"; "critical"; "must not"; "required"] m = false →
        Py.any_in ["error"; "invalid"; "violation"; "shall not"] m = false →
        Py.any_in ["warning"; "should"; "recommend"] m = true →
          result = "warning")
     ∧ (Py.any_in ["fatal"; "critical"; "must not"; "required"] m = false →
        Py.any_in ["error"; "invalid"; "violation"; "shall not"] m = false →
        Py.any_in ["warning"; "should"; "recommend"] m = false →
        Py.any_in ["info"; "information"; "note"] m = true →
          result = "info")
     ∧ (Py.any_in ["fatal"; "critical"; "must not"; "required"] m = false →
        Py.any_in ["error"; "invalid"; "violation"; "shall not"] m = false →
        Py.any_in ["warning"; "should"; "recommend"] m = false →
        Py.any_in ["info"; "information"; "note"] m = false →
          (Py.contains "not(" t = true ∨ Py.contains "false()" t = true →
             result = "error")
          ∧ result = "error")).
Proof.
  destruct severity_literals as (Hf & He & Hw & Hi).
  cbv zeta. unfold _determine_severity.
  split; [|split; [|split]].
  - case_bool_decide; [done|].
    repeat case_match; done.
  - intros H. by rewrite bool_decide_true.
  - reflexivity.
  - intros H. rewrite bool_decide_false by done.
    repeat split; intros; repeat case_match; congruence.
Qed.

Lemma determine_severity_chain_witness :
  _determine_severity "Warning" "A fatal error" "" = "warning"
  ∧ _determine_severity "minor" "Value SHALL NOT be empty" "" = "error"
  ∧ _determine_severity "minor" "Please note the format" "not(x)" = "info"
  ∧ _determine_severity "minor" "Missing" "not(empty(ID))" = "error".
Proof.
  destruct (determine_severity_chain "Warning" "A fatal error" "") as (_ & Hrole & _).
  destruct (determine_severity_chain "minor" "Value SHALL NOT be empty" "")
    as (_ & _ & _ & Herror).
  destruct (determine_severity_chain "minor" "Please note the format" "not(x)")
    as (_ & _ & _ & Hinfo).
  destruct (determine_severity_chain "minor" "Missing" "not(empty(ID))")
    as (_ & _ & _ & Htest).
  destruct Herror as (_ & Herror & _);
    [apply (bool_decide_unpack _); vm_compute; exact I|].
  destruct Hinfo as (_ & _ & _ & Hinfo & _);
    [apply (bool_decide_unpack _); vm_compute; exact I|].
  destruct Htest as (_ & _ & _ & _ & Htest);
    [apply (bool_decide_unpack _); vm_compute; exact I|].
  destruct Htest as [Htest _]; [vm_compute; reflexivity..|].
  split; [apply Hrole; apply (bool_decide_unpack _); vm_compute; exact I|].
  split; [apply Herror; vm_compute; reflexivity|].
  split; [apply Hinfo; vm_compute; reflexivity|].
  apply Htest. left. vm_compute. reflexivity.
Defined.

End SeverityChain.

(** ** Findings without a declared role *)

Section AbsentRole.
Import Validator.

(** C1 (amended). A failed assertion without a [role] attribute gets the
    role ['error'] and, through it, the severity error, whatever its
    message.  A declared role that is one of the four severities once
    lowercased is the severity.  The message keywords decide only when a
    role is declared and is none of the four: then a message with a
    warning keyword and no fatal or error keyword gives severity
    warning. *)
Theorem analyzer_absent_role_is_error X st out result root a :
  fromstring X out = Some root →
  a ∈ findall root (svrl "failed-assert") →
  ∃ details,
    error_details (fst (_analyze_svrl_output X st out result)) = Some details
    ∧ error_detail a ∈ details
    ∧ (attrib a !! "role" = None →
         role (error_detail a) = "error" ∧ severity (error_detail a) = "error")
    ∧ (∀ declared,
         attrib a !! "role" = Some declared →
         Py.lower declared ∈ severities →
         severity (error_detail a) = Py.lower declared)
    ∧ (∀ declared msg,
         attrib a !! "role" = Some declared →
         Py.lower declared ∉ severities →
         message (error_detail a) = Some msg → msg ≠ "" →
         Py.any_in ["warning"; "should"; "recommend"] (Py.lower msg) = true →
         Py.any_in ["fatal"; "critical"; "must not"; "required"] (Py.lower msg) = false →
         Py.any_in ["error"; "invalid"; "violation"; "shall not"] (Py.lower msg) = false →
         severity (error_detail a) = "warning").
Proof.
  intros Hroot Ha.
  exists (map error_detail (findall root (svrl "failed-assert"))).
  split; [|split; [|split; [|split]]].
  - apply analyze_error_details; [done|]. intros E. rewrite E in Ha. by inversion Ha.
  - by apply list_elem_of_fmap_2.
  - intros Hrole. unfold error_detail. rewrite Hrole. simpl. split; [done|].
    exact (determine_severity_of_role "error" _ _ (proj1 (proj2 severity_literals))).
  - intros declared Hrole Hin. unfold error_detail. rewrite Hrole.
    cbn [severity]. by apply determine_severity_of_role.
  - intros declared msg Hrole Hnot Hmsg Hne Hw Hf He.
    unfold error_detail in Hmsg |- *. rewrite Hrole.
    cbn [message severity] in Hmsg |- *. rewrite Hmsg.
    change (default "error" (Some declared)) with declared.
    destruct msg as [|c msg]; [done|].
    unfold _determine_severity. rewrite bool_decide_false by done.
    by rewrite Hf, He, Hw.
Qed.

Lemma analyzer_absent_role_is_error_witness :
  ∃ details,
    error_details (fst (_analyze_svrl_output
                          (Samples.parsing (Some (Samples.report [Samples.odd_role_assert])))
                          init "svrl" (Samples.fresh_result "a.xsl"))) = Some details
    ∧ error_detail Samples.odd_role_assert ∈ details
    ∧ severity (error_detail Samples.odd_role_assert) = "warning".
Proof.
  destruct (analyzer_absent_role_is_error
              (Samples.parsing (Some (Samples.report [Samples.odd_role_assert])))
              init "svrl" (Samples.fresh_result "a.xsl")
              (Samples.report [Samples.odd_role_assert]) Samples.odd_role_assert)
    as (details & Hd & Hin & _ & _ & Hkw).
  - reflexivity.
  - assert (findall (Samples.report [Samples.odd_role_assert]) (svrl "failed-assert")
            = [Samples.odd_role_assert]) as -> by (vm_compute; reflexivity).
    apply list_elem_of_here.
  - exists details. split; [exact Hd|]. split; [exact Hin|].
    apply (Hkw "Minor" "Buyer reference should be provided").
    + vm_compute. reflexivity.
    + apply (bool_decide_unpack _). vm_compute. exact I.
    + vm_compute. reflexivity.
    + discriminate.
    + vm_compute. reflexivity.
    + vm_compute. reflexivity.
    + vm_compute. reflexivity.
Defined.

(** C1 as stated fails: the analyzer classifies a failed assertion
    that has no [role] attribute and the message "Buyer reference should
    be provided" as error, not warning. *)
Lemma absent_role_warning_keyword_refuted :
  let X := Samples.parsing (Some (Samples.report [Samples.unroled_assert])) in
  attrib Samples.unroled_assert !! "role" = None
  ∧ Py.any_in ["warning"; "should"; "recommend"]
      (Py.lower "Buyer reference should be provided") = true
  ∧ Py.any_in ["fatal"; "critical"; "must not"; "required"]
      (Py.lower "Buyer reference should be provided") = false
  ∧ Py.any_in ["error"; "invalid"; "violation"; "shall not"]
      (Py.lower "Buyer reference should be provided") = false
  ∧ error_details (fst (_analyze_svrl_output X init "svrl" (Samples.fresh_result "a.xsl")))
    = Some [mkErrorDetail "/Invoice" "cbc:BuyerReference"
              (Some "Buyer reference should be provided") "error" "error" None]
  ∧ severity (error_detail Samples.unroled_assert) ≠ "warning".
Proof. vm_compute. repeat split; discriminate. Qed.

End AbsentRole.

(** ** The stylesheet executable cache *)

Section ExecutableCache.
Import Validator.

(** A call on a state whose cache has no entry for the path. *)
Lemma get_compiled_xslt_miss X fs st xsl_file :
  xslt_cache st !! xsl_file = None →
  let out := get_compiled_xslt X fs st xsl_file in
  cache_hits (snd out) = cache_hits st
  ∧ (exists_ fs xsl_file = true →
     engine_calls (snd out) = CompileStylesheet xsl_file :: engine_calls st
     ∧ ∀ x, compile_stylesheet X fs xsl_file = Compiled x →
            fst out = Some x ∧ xslt_cache (snd out) = <[xsl_file := x]> (xslt_cache st)).
Proof.
  intros Hmiss. cbv zeta. unfold get_compiled_xslt. rewrite Hmiss.
  destruct (exists_ fs xsl_file); simpl; [|done].
  destruct (compile_stylesheet X fs xsl_file); simpl.
  all: split; [done|]; intros _; split; [done|]; intros ? [= <-]; done.
Qed.

(** C6. On a hit [get_compiled_xslt] returns the stored executable,
    makes no engine call and adds one to the hit counter.  On a miss
    for an existing file it calls the engine's compile primitive exactly
    once and, when that yields an executable, stores it under the path.
    A failure (missing file, falsy executable, exception) returns
    nothing and leaves the cache and the hit counter as they were, so
    the next call for the path is a miss again: it is not counted as a
    hit and, when the file exists then, it calls the compiler again and
    returns and stores what it yields. *)
Theorem executable_cache_hit_miss_failure X fs st xsl_file :
  let out := get_compiled_xslt X fs st xsl_file in
  (∀ x, xslt_cache st !! xsl_file = Some x →
     fst out = Some x
     ∧ engine_calls (snd out) = engine_calls st
     ∧ cache_hits (snd out) = S (cache_hits st)
     ∧ xslt_cache (snd out) = xslt_cache st)
  ∧ (xslt_cache st !! xsl_file = None → exists_ fs xsl_file = true →
     engine_calls (snd out) = CompileStylesheet xsl_file :: engine_calls st
     ∧ cache_hits (snd out) = cache_hits st
     ∧ ∀ x, compile_stylesheet X fs xsl_file = Compiled x →
            fst out = Some x ∧ xslt_cache (snd out) = <[xsl_file := x]> (xslt_cache st))
  ∧ (xslt_cache st !! xsl_file = None →
     exists_ fs xsl_file = false
     ∨ compile_stylesheet X fs xsl_file = CompileFalsy
     ∨ compile_stylesheet X fs xsl_file = CompileRaises →
     fst out = None
     ∧ xslt_cache (snd out) = xslt_cache st
     ∧ cache_hits (snd out) = cache_hits st
     ∧ (exists_ fs xsl_file = false → engine_calls (snd out) = engine_calls st)
     ∧ ∀ X2 fs2,
         let out2 := get_compiled_xslt X2 fs2 (snd out) xsl_file in
         cache_hits (snd out2) = cache_hits (snd out)
         ∧ (exists_ fs2 xsl_file = true →
            engine_calls (snd out2)
            = CompileStylesheet xsl_file :: engine_calls (snd out)
            ∧ ∀ x, compile_stylesheet X2 fs2 xsl_file = Compiled x →
                   fst out2 = Some x
                   ∧ xslt_cache (snd out2) = <[xsl_file := x]> (xslt_cache st))).
Proof.
  cbv zeta. split; [|split].
  - intros x Hhit. unfold get_compiled_xslt. by rewrite Hhit.
  - intros Hmiss Hex.
    destruct (get_compiled_xslt_miss X fs st xsl_file Hmiss) as [Hhits Hcall].
    destruct (Hcall Hex) as [Hcalls Hstore]. done.
  - intros Hmiss Hfail.
    assert (fst (get_compiled_xslt X fs st xsl_file) = None
            ∧ xslt_cache (snd (get_compiled_xslt X fs st xsl_file)) = xslt_cache st
            ∧ (exists_ fs xsl_file = false →
               engine_calls (snd (get_compiled_xslt X fs st xsl_file)) = engine_calls st))
      as (Hnone & Hsame & Hquiet).
    { unfold get_compiled_xslt. rewrite Hmiss.
      destruct (exists_ fs xsl_file) eqn:Hex; simpl; [|done].
      destruct Hfail as [?|[Hc|Hc]]; [done|..]; by rewrite Hc. }
    split; [done|]. split; [done|].
    split; [apply (get_compiled_xslt_miss X fs st xsl_file Hmiss)|].
    split; [done|]. intros X2 fs2.
    assert (xslt_cache (snd (get_compiled_xslt X fs st xsl_file)) !! xsl_file = None)
      as Hmiss' by (by rewrite Hsame).
    pose proof (get_compiled_xslt_miss X2 fs2 _ xsl_file Hmiss') as Hnext.
    cbv zeta in Hnext. rewrite Hsame in Hnext. exact Hnext.
Qed.

Lemma executable_cache_hit_miss_failure_witness :
  let fs := mkFS (<["xslt_schematron/a.xsl" := Data "<xsl:stylesheet/>"]> ∅) ∅ in
  let broken :=
    mkExtern (λ b, b) 0 (λ _ _, CompileFalsy) (λ _ _ _ _, FileRaises)
             (λ _ _ _, StringRaises) (λ _, None) in
  let first := get_compiled_xslt broken fs init "xslt_schematron/a.xsl" in
  let second := get_compiled_xslt (Samples.parsing None) fs (snd first) "xslt_schematron/a.xsl" in
  let third := get_compiled_xslt broken fs (snd second) "xslt_schematron/a.xsl" in
  (fst first = None ∧ xslt_cache (snd first) = ∅)
  ∧ (fst second = Some 7 ∧ cache_hits (snd second) = 0)
  ∧ (fst third = Some 7 ∧ cache_hits (snd third) = 1
     ∧ engine_calls (snd third) = engine_calls (snd second)).
Proof.
  intros fs broken first second third.
  destruct (executable_cache_hit_miss_failure broken fs init "xslt_schematron/a.xsl")
    as (_ & _ & Hfail).
  destruct Hfail as (Hnone & Hcache & _ & _ & Hretry);
    [reflexivity | right; left; reflexivity |].
  destruct (Hretry (Samples.parsing None) fs) as [Hhits Hagain].
  destruct Hagain as [_ Hstored]; [vm_compute; reflexivity|].
  destruct (Hstored 7) as [Hsome Hput]; [reflexivity|].
  destruct (executable_cache_hit_miss_failure broken fs (snd second)
              "xslt_schematron/a.xsl") as (Hhit & _ & _).
  destruct (Hhit 7) as (H1 & H2 & H3 & _).
  { unfold second, first. rewrite Hput. apply lookup_insert_eq. }
  split; [split; [exact Hnone | exact Hcache]|].
  split; [split; [exact Hsome | exact Hhits]|].
  split; [exact H1|]. split; [|exact H2].
  unfold third. rewrite H3. unfold second, first. rewrite Hhits. reflexivity.
Defined.

End ExecutableCache.

(** ** One stylesheet run *)

Section Runs.
Import Validator.

Lemma analyze_parse_failure X st out result :
  fromstring X out = None →
  _analyze_svrl_output X st out result = (result, print CouldNotParseSvrl st).
Proof. intros H. unfold _analyze_svrl_output. by rewrite H. Qed.

Lemma analyze_keeps X st out result :
  let out' := _analyze_svrl_output X st out result in
  xslt_file (fst out') = xslt_file result
  ∧ success (fst out') = success result
  ∧ (is_Some (fired_rules result) → is_Some (fired_rules (fst out')))
  ∧ (is_Some (failed_assertions result) → is_Some (failed_assertions (fst out')))
  ∧ (is_Some (successful_reports result) → is_Some (successful_reports (fst out'))).
Proof.
  cbv zeta. unfold _analyze_svrl_output.
  destruct (fromstring X out) as [root|]; [|done].
  destruct (foldl _ _ _) as [breakdown details]. simpl. eauto 10.
Qed.

Lemma validate_against_xslt_shape X fs st xml_file xsl_file :
  let r := fst (_validate_against_xslt X fs st xml_file xsl_file) in
  xslt_file r = xsl_file ∧ run_shape r.
Proof.
  cbv zeta. unfold _validate_against_xslt.
  destruct (get_compiled_xslt X fs st xsl_file) as [[x|] st1];
    [|by repeat split].
  destruct (transform_to_string X x fs xml_file) as [|output fault];
    [by repeat split|].
  destruct fault; [by repeat split|].
  destruct (analyze_keeps X (call (TransformToString x xml_file) st1) output
              (mkXsltResult xsl_file true (Some output) (Some 0) (Some 0) (Some 0)
                 None None None)) as (Hf & Hs & H1 & H2 & H3).
  split; [done|]. split.
  - intros _. repeat split; [apply H1|apply H2|apply H3]; by eexists.
  - intros Hfalse. rewrite Hs in Hfalse. done.
Qed.

(** A run whose output does not parse: the success flag set after the
    execution stays, the counts stay zero, the warning is printed. *)
Lemma validate_against_xslt_parse_failure X fs st xml_file xsl_file x st1 output :
  get_compiled_xslt X fs st xsl_file = (Some x, st1) →
  transform_to_string X x fs xml_file = StringReturns output false →
  fromstring X output = None →
  _validate_against_xslt X fs st xml_file xsl_file
  = (mkXsltResult xsl_file true (Some output) (Some 0) (Some 0) (Some 0) None None None,
     print CouldNotParseSvrl (call (TransformToString x xml_file) st1)).
Proof.
  intros Hexe Hrun Hparse. unfold _validate_against_xslt.
  rewrite Hexe, Hrun. by apply analyze_parse_failure.
Qed.

End Runs.

(** ** One document against all its stylesheets *)

Section Document.
Import Validator.

Lemma successful_cons r rs :
  successful (r :: rs) = if success r then r :: successful rs else successful rs.
Proof.
  unfold successful. destruct (success r) eqn:Hs.
  - by rewrite filter_cons_True.
  - rewrite filter_cons_False; [done|]. by rewrite Hs.
Qed.

Lemma total_successful_cons count r rs :
  total count (successful (r :: rs))
  = (if success r then get0 (count r) else 0) + total count (successful rs).
Proof. rewrite successful_cons. by destruct (success r). Qed.



Lemma validate_step_spec X fs xml_file d st xsl_file :
  let out := validate_step X fs xml_file (d, st) xsl_file in
  ∃ r,
    Doc.xslt_results (fst out) = Doc.xslt_results d ++ [r]
    ∧ xslt_file r = xsl_file
    ∧ run_shape r
    ∧ Doc.success (fst out) = Doc.success d && success r
    ∧ Doc.total_fired_rules (fst out)
      = Doc.total_fired_rules d + (if success r then get0 (fired_rules r) else 0)
    ∧ Doc.total_failed_assertions (fst out)
      = Doc.total_failed_assertions d
        + (if success r then get0 (failed_assertions r) else 0)
    ∧ Doc.total_successful_reports (fst out)
      = Doc.total_successful_reports d
        + (if success r then get0 (successful_reports r) else 0)
    ∧ Doc.xml_file (fst out) = Doc.xml_file d
    ∧ Doc.file_size (fst out) = Doc.file_size d.
Proof.
  cbv zeta. unfold validate_step.
  destruct (exists_ fs xsl_file); simpl.
  - pose proof (validate_against_xslt_shape X fs st xml_file xsl_file) as Hshape.
    cbv zeta in Hshape.
    destruct (_validate_against_xslt X fs st xml_file xsl_file) as [r st1].
    simpl in Hshape. destruct Hshape as [Hfile Hshape]. exists r.
    destruct (success r) eqn:Hs; simpl; rewrite ?Hs, ?andb_true_r, ?andb_false_r;
      repeat split; try done; try apply Hshape; try done; lia.
  - exists (mkXsltResult xsl_file false None None None None (Some XsltNotFound) None None).
    simpl. rewrite andb_false_r.
    repeat split; try done; lia.
Qed.

Lemma validate_fold X fs xml_file xsl_files d st :
  let out := foldl (validate_step X fs xml_file) (d, st) xsl_files in
  ∃ rs,
    Doc.xslt_results (fst out) = Doc.xslt_results d ++ rs
    ∧ map xslt_file rs = xsl_files
    ∧ Forall run_shape rs
    ∧ Doc.success (fst out) = Doc.success d && forallb success rs
    ∧ Doc.total_fired_rules (fst out)
      = Doc.total_fired_rules d + total fired_rules (successful rs)
    ∧ Doc.total_failed_assertions (fst out)
      = Doc.total_failed_assertions d + total failed_assertions (successful rs)
    ∧ Doc.total_successful_reports (fst out)
      = Doc.total_successful_reports d + total successful_reports (successful rs)
    ∧ Doc.xml_file (fst out) = Doc.xml_file d
    ∧ Doc.file_size (fst out) = Doc.file_size d.
Proof.
  cbv zeta. revert d st.
  induction xsl_files as [|xsl_file xsl_files IH]; intros d st; cbn [foldl].
  - exists []. simpl. rewrite app_nil_r, andb_true_r. unfold total. simpl.
    repeat split; try done; lia.
  - destruct (validate_step_spec X fs xml_file d st xsl_file)
      as (r & Hres & Hfile & Hshape & Hok & Hf & Ha & Hr & Hx & Hz).
    destruct (validate_step X fs xml_file (d, st) xsl_file) as [d1 st1].
    cbn [fst snd] in *.
    destruct (IH d1 st1) as (rs & Hres' & Hfiles & Hshapes & Hok' & Hf' & Ha' & Hr' & Hx' & Hz').
    exists (r :: rs).
    rewrite Hres', Hres, <- app_assoc. simpl.
    rewrite Hok', Hok, Hf', Hf, Ha', Ha, Hr', Hr, Hx', Hx, Hz', Hz.
    rewrite !total_successful_cons, Hfile, Hfiles, andb_assoc.
    repeat split; try done; try lia.
    by constructor.
Qed.

End Document.

(** ** The JSON report *)

Section Report.
Import Validator.

Lemma add_breakdown_lookup (overall breakdown : gmap string nat) k :
  add_breakdown overall breakdown !! k
  = (λ n, n + default 0 (breakdown !! k)) <$> overall !! k.
Proof.
  unfold add_breakdown. revert k.
  apply (map_fold_weak_ind
           (λ r (m : gmap string nat),
              ∀ k, r !! k = (λ n, n + default 0 (m !! k)) <$> overall !! k)).
  - intros k. rewrite lookup_empty. simpl.
    destruct (overall !! k) as [n|]; simpl; [|done]. f_equal. lia.
  - intros i x m r Hfresh IH k.
    destruct (decide (k = i)) as [->|Hne].
    + rewrite lookup_insert_eq. simpl.
      specialize (IH i). rewrite Hfresh in IH. simpl in IH.
      case_bool_decide as Hdom.
      * rewrite lookup_alter_eq, IH.
        destruct (overall !! i) as [n|]; simpl; [|done]. f_equal. lia.
      * rewrite IH. rewrite elem_of_dom, IH in Hdom.
        destruct (overall !! i) as [n|]; simpl; [|done].
        exfalso. apply Hdom. by eexists.
    + rewrite lookup_insert_ne by done.
      case_bool_decide; [rewrite lookup_alter_ne by done|]; apply IH.
Qed.

Lemma errors_copied (details : list ErrorDetail) :
  map (λ e, mkErrorDetail (location e) (test e) (message e) (severity e)
              (role e) (rule_id e)) details = details.
Proof. induction details as [|[] details IH]; simpl; [done|]. by rewrite IH. Qed.

(** The report entry of a run that carries its counts. *)
Lemma schematron_result_of_shape r :
  run_shape r → success r = true →
  schematron_result r
  = Some (Json.mkSchematronResult (stem (xslt_file r)) (xslt_file r)
            (get0 (fired_rules r)) (get0 (failed_assertions r))
            (get0 (successful_reports r)) (default ∅ (severity_breakdown r))
            (default [] (error_details r))).
Proof.
  intros [Hshape _] Hs. destruct (Hshape Hs) as ([a Ha] & [b Hb] & [c Hc]).
  unfold schematron_result. rewrite Ha, Hb, Hc. simpl. by rewrite errors_copied.
Qed.

(** The loop of [_create_json_result] over runs that have their shape:
    it never raises, skips the unsuccessful runs, and adds one entry and
    one breakdown per successful run. *)
Lemma report_loop (rs : list XsltResult) overall entries :
  Forall run_shape rs →
  ∃ overall' entries',
    foldl (λ acc xslt_result,
             '(overall, entries) ← acc;
             if negb (success xslt_result) then Some (overall, entries)
             else
               entry ← schematron_result xslt_result;
               Some (add_breakdown overall (Json.severity_breakdown entry),
                     entries ++ [entry]))
          (Some (overall, entries)) rs
    = Some (overall', entries')
    ∧ map Some entries' = map Some entries ++ map schematron_result (successful rs)
    ∧ ∀ k, overall' !! k
           = (λ n, n + sum_list (map (breakdown_count k) (successful rs)))
               <$> overall !! k.
Proof.
  intros Hshape. revert overall entries.
  induction Hshape as [|r rs Hr Hrs IH]; intros overall entries; cbn [foldl].
  - exists overall, entries. split; [done|]. split; [by rewrite app_nil_r|].
    intros k. simpl. destruct (overall !! k) as [n|]; simpl; [|done]. f_equal. lia.
  - rewrite successful_cons. simpl. destruct (success r) eqn:Hs; simpl.
    + rewrite (schematron_result_of_shape r Hr Hs). simpl.
      destruct (IH (add_breakdown overall (default ∅ (severity_breakdown r)))
                   (entries ++ [Json.mkSchematronResult (stem (xslt_file r))
                      (xslt_file r) (get0 (fired_rules r))
                      (get0 (failed_assertions r)) (get0 (successful_reports r))
                      (default ∅ (severity_breakdown r))
                      (default [] (error_details r))]))
        as (overall' & entries' & Hloop & Hentries & Hoverall).
      exists overall', entries'. split; [done|]. split.
      * rewrite Hentries, map_app, <- app_assoc. done.
      * intros k. rewrite Hoverall, add_breakdown_lookup.
        unfold breakdown_count at 2.
        destruct (overall !! k) as [n|]; simpl; [|done]. f_equal. lia.
    + destruct (IH overall entries) as (overall' & entries' & Hloop & Hentries & Hoverall).
      exists overall', entries'. done.
Qed.

End Report.

(** ** Verdict and totals of a document *)

Section Aggregation.
Import Validator.

(** What [validate_xml_file] does for a document that exists. *)
Lemma validate_xml_file_spec X fs st xml_file xsl_files :
  exists_ fs xml_file = true →
  ∃ results st' report,
    validate_xml_file X fs st xml_file xsl_files = (Validated results, st')
    ∧ map xslt_file (Doc.xslt_results results) = xsl_files
    ∧ Forall run_shape (Doc.xslt_results results)
    ∧ Doc.success results = forallb success (Doc.xslt_results results)
    ∧ Doc.total_fired_rules results
      = total fired_rules (successful (Doc.xslt_results results))
    ∧ Doc.total_failed_assertions results
      = total failed_assertions (successful (Doc.xslt_results results))
    ∧ Doc.total_successful_reports results
      = total successful_reports (successful (Doc.xslt_results results))
    ∧ json_files st' !! json_filename xml_file = Some report
    ∧ Json.validation_success report = Doc.success results
    ∧ Json.total_rules_fired report = Doc.total_fired_rules results
    ∧ Json.total_failed_assertions report = Doc.total_failed_assertions results
    ∧ Json.total_successful_reports report = Doc.total_successful_reports results
    ∧ Json.is_valid report
      = Doc.success results && (Doc.total_failed_assertions results =? 0)
    ∧ map Some (Json.schematron_results report)
      = map schematron_result (successful (Doc.xslt_results results))
    ∧ ∀ k, Json.overall_severity_breakdown report !! k
           = (λ n, n + sum_list (map (breakdown_count k)
                                     (successful (Doc.xslt_results results))))
               <$> zero_breakdown !! k.
Proof.
  intros Hex. unfold validate_xml_file. rewrite Hex. cbn [negb].
  set (st0 := mkState _ _ _ _ _ _ _).
  destruct (validate_fold X fs xml_file xsl_files
              (Doc.mk xml_file (st_size fs xml_file) [] true 0 0 0) st0)
    as (rs & Hres & Hfiles & Hshape & Hok & Hf & Ha & Hr & _ & _).
  destruct (foldl _ _ xsl_files) as [results st1].
  cbn [fst snd Doc.xslt_results Doc.success Doc.total_fired_rules
       Doc.total_failed_assertions Doc.total_successful_reports app andb] in *.
  subst rs.
  destruct (report_loop (Doc.xslt_results results) zero_breakdown [] Hshape)
    as (overall & entries & Hloop & Hentries & Hoverall).
  unfold _create_json_result, json_result. rewrite Hloop.
  cbn [mbind option_bind].
  eexists _, _, _. split; [reflexivity|].
  cbn [json_files]. rewrite lookup_insert_eq.
  repeat split; try done.
Qed.



(** The two examples of the aggregation: rule sets reporting 3 and 0
    failed assertions give a total of 3 and an invalid document; a single
    rule set reporting none gives a valid one. *)
Example aggregation_three_and_none :
  ∃ results st,
    validate_xml_file Samples.rule_sets Samples.disk init Samples.invoice
      [Samples.a_xsl; Samples.b_xsl] = (Validated results, st)
    ∧ map failed_assertions (Doc.xslt_results results) = [Some 3; Some 0]
    ∧ map success (Doc.xslt_results results) = [true; true]
    ∧ Doc.total_failed_assertions results = 3
    ∧ Json.is_valid <$> json_files st !! json_filename Samples.invoice = Some false.
Proof. eexists _, _. split; [vm_compute; reflexivity|]. vm_compute. done. Qed.

Example aggregation_all_clean :
  ∃ results st,
    validate_xml_file Samples.rule_sets Samples.disk init Samples.invoice
      [Samples.b_xsl] = (Validated results, st)
    ∧ Doc.total_failed_assertions results = 0
    ∧ Json.is_valid <$> json_files st !! json_filename Samples.invoice = Some true.
Proof. eexists _, _. split; [vm_compute; reflexivity|]. vm_compute. done. Qed.

End Aggregation.

Section Containment.
Import Validator.

Lemma entries_of_runs rs entries :
  Forall run_shape rs →
  map Some entries = map schematron_result (successful rs) →
  Forall2 entry_of_run (successful rs) entries.
Proof.
  intros Hshape. revert entries.
  induction Hshape as [|r rs Hr _ IH]; intros entries Hmap.
  - destruct entries; [constructor|done].
  - rewrite successful_cons in Hmap |- *.
    destruct (success r) eqn:Hs; [|by apply IH].
    destruct entries as [|entry entries]; [done|].
    simpl in Hmap. injection Hmap as Hentry Hrest.
    rewrite (schematron_result_of_shape r Hr Hs) in Hentry.
    injection Hentry as ->.
    constructor; [by repeat split|by apply IH].
Qed.

Lemma zero_breakdown_lookup k :
  k ∈ severities → zero_breakdown !! k = Some 0.
Proof.
  unfold severities. rewrite !elem_of_cons, elem_of_nil.
  intros [->|[->|[->|[->|[]]]]]; reflexivity.
Qed.

(** C9. A run that did not succeed adds nothing to the totals of the
    document and has no entry in the report: the three totals are the
    sums over the successful runs only, the per-rule-set entries of the
    report are those of the successful runs, in order, each with the
    counts, breakdown and findings of its run, and every key of the
    overall severity histogram is the sum over the successful runs. *)
Theorem unsuccessful_runs_are_left_out X fs st xml_file xsl_files :
  exists_ fs xml_file = true →
  ∃ results st' report,
    validate_xml_file X fs st xml_file xsl_files = (Validated results, st')
    ∧ json_files st' !! json_filename xml_file = Some report
    ∧ Doc.total_fired_rules results
      = total fired_rules (successful (Doc.xslt_results results))
    ∧ Doc.total_failed_assertions results
      = total failed_assertions (successful (Doc.xslt_results results))
    ∧ Doc.total_successful_reports results
      = total successful_reports (successful (Doc.xslt_results results))
    ∧ Json.total_rules_fired report = Doc.total_fired_rules results
    ∧ Json.total_failed_assertions report = Doc.total_failed_assertions results
    ∧ Json.total_successful_reports report = Doc.total_successful_reports results
    ∧ Forall2 entry_of_run (successful (Doc.xslt_results results))
        (Json.schematron_results report)
    ∧ ∀ k, k ∈ severities →
           Json.overall_severity_breakdown report !! k
           = Some (sum_list (map (breakdown_count k)
                                 (successful (Doc.xslt_results results)))).
Proof.
  intros Hex.
  destruct (validate_xml_file_spec X fs st xml_file xsl_files Hex)
    as (results & st' & report & Hrun & _ & Hshape & _ & Hf & Ha & Hr
        & Hjson & _ & Hjf & Hja & Hjr & _ & Hentries & Hoverall).
  exists results, st', report. repeat (split; [done|]). split.
  - by apply entries_of_runs.
  - intros k Hk. by rewrite Hoverall, (zero_breakdown_lookup k Hk).
Qed.

Lemma unsuccessful_runs_are_left_out_witness :
  ∃ results st' report,
    validate_xml_file Samples.rule_sets Samples.disk init Samples.invoice
      [Samples.a_xsl; Samples.c_xsl] = (Validated results, st')
    ∧ json_files st' !! json_filename Samples.invoice = Some report
    ∧ Doc.total_fired_rules results
      = total fired_rules (successful (Doc.xslt_results results))
    ∧ Doc.total_failed_assertions results
      = total failed_assertions (successful (Doc.xslt_results results))
    ∧ Doc.total_successful_reports results
      = total successful_reports (successful (Doc.xslt_results results))
    ∧ Json.total_rules_fired report = Doc.total_fired_rules results
    ∧ Json.total_failed_assertions report = Doc.total_failed_assertions results
    ∧ Json.total_successful_reports report = Doc.total_successful_reports results
    ∧ Forall2 entry_of_run (successful (Doc.xslt_results results))
        (Json.schematron_results report)
    ∧ ∀ k, k ∈ severities →
           Json.overall_severity_breakdown report !! k
           = Some (sum_list (map (breakdown_count k)
                                 (successful (Doc.xslt_results results)))).
Proof.
  apply (unsuccessful_runs_are_left_out Samples.rule_sets Samples.disk init
           Samples.invoice [Samples.a_xsl; Samples.c_xsl]).
  vm_compute. reflexivity.
Defined.

(** A rule set that does not compile next to one with three findings:
    the report has the one entry and the histogram of the one run. *)
Example failed_run_example :
  ∃ results st,
    validate_xml_file Samples.rule_sets Samples.disk init Samples.invoice
      [Samples.c_xsl; Samples.a_xsl] = (Validated results, st)
    ∧ map success (Doc.xslt_results results) = [false; true]
    ∧ Doc.success results = false
    ∧ Doc.total_failed_assertions results = 3
    ∧ (map Json.xslt_file ∘ Json.schematron_results)
        <$> json_files st !! json_filename Samples.invoice = Some [Samples.a_xsl]
    ∧ (λ report, map (λ k, Json.overall_severity_breakdown report !! k) severities)
        <$> json_files st !! json_filename Samples.invoice
      = Some [Some 0; Some 3; Some 0; Some 0].
Proof. eexists _, _. split; [vm_compute; reflexivity|]. vm_compute. done. Qed.

(** The loop of [validate_samples] yields one result per document. *)
Lemma samples_loop_length X fs xsl_files xml_files all_results st :
  length (fst (foldl (λ '(all_results, st) xml_file,
                        let '(results, st) :=
                          validate_xml_file X fs st xml_file xsl_files in
                        (all_results ++ [results], st))
                     (all_results, st) xml_files))
  = length all_results + length xml_files.
Proof.
  revert all_results st.
  induction xml_files as [|xml_file xml_files IH]; intros all_results st; cbn [foldl].
  - simpl. lia.
  - destruct (validate_xml_file X fs st xml_file xsl_files) as [results st1].
    rewrite IH, length_app. simpl. lia.
Qed.

Lemma validate_samples_length X fs st samples_dir force_rebuild results fs' st' :
  validate_samples X fs st samples_dir force_rebuild = Ok (results, fs', st') →
  results = [] ∨ length results = length (glob fs' samples_dir ".xml").
Proof.
  unfold validate_samples.
  destruct (ensure_xslt_generated X fs force_rebuild) as [[generated fs1]|];
    [|done].
  cbn [mbind Result_bind].
  destruct generated; cbn [negb]; [|intros [= <- _ _]; by left].
  destruct (glob fs1 Transformer.output_dir ".xsl") as [|xsl xsls];
    [intros [= <- _ _]; by left|].
  destruct (exists_ fs1 samples_dir); cbn [negb]; [|intros [= <- _ _]; by left].
  destruct (glob fs1 samples_dir ".xml") as [|xml xmls] eqn:Hxml;
    [intros [= <- _ _]; by left|].
  pose proof (samples_loop_length X fs1 (xsl :: xsls) (xml :: xmls) [] st) as Hlen.
  destruct (foldl _ _ (xml :: xmls)) as [all_results st1].
  intros [= <- <- _]. right. by rewrite Hxml.
Qed.

(** C7. When the output of a run does not parse, the analyzer leaves
    the result as it was and prints a warning; the run keeps the success
    flag it got from the execution and its three counts stay zero.  The
    analyzer and the run are total, so the loop over the stylesheets
    yields a result for every stylesheet, and the loop over the
    documents a result for every document. *)
Theorem parse_failure_is_contained X fs st xml_file :
  (∀ st0 out result,
     fromstring X out = None →
     _analyze_svrl_output X st0 out result = (result, print CouldNotParseSvrl st0))
  ∧ (∀ st0 xsl_file x st1 output,
       get_compiled_xslt X fs st0 xsl_file = (Some x, st1) →
       transform_to_string X x fs xml_file = StringReturns output false →
       fromstring X output = None →
       let out := _validate_against_xslt X fs st0 xml_file xsl_file in
       success (fst out) = true
       ∧ fired_rules (fst out) = Some 0
       ∧ failed_assertions (fst out) = Some 0
       ∧ successful_reports (fst out) = Some 0
       ∧ error (fst out) = None
       ∧ console (snd out) = CouldNotParseSvrl :: console st1)
  ∧ (∀ xsl_files,
       exists_ fs xml_file = true →
       ∃ results st',
         validate_xml_file X fs st xml_file xsl_files = (Validated results, st')
         ∧ map xslt_file (Doc.xslt_results results) = xsl_files)
  ∧ (∀ samples_dir force_rebuild results fs' st',
       validate_samples X fs st samples_dir force_rebuild = Ok (results, fs', st') →
       results = [] ∨ length results = length (glob fs' samples_dir ".xml")).
Proof.
  split; [|split; [|split]].
  - intros st0 out result. apply analyze_parse_failure.
  - intros st0 xsl_file x st1 output Hexe Hrun Hparse. cbv zeta.
    by rewrite (validate_against_xslt_parse_failure X fs st0 xml_file xsl_file
                  x st1 output Hexe Hrun Hparse).
  - intros xsl_files Hex.
    destruct (validate_xml_file_spec X fs st xml_file xsl_files Hex)
      as (results & st' & report & Hrun & Hfiles & _).
    by exists results, st'.
  - intros samples_dir force_rebuild results fs' st'.
    apply validate_samples_length.
Qed.

Lemma parse_failure_is_contained_witness :
  let out :=
    _validate_against_xslt Samples.rule_sets Samples.disk init Samples.invoice
      Samples.d_xsl in
  (success (fst out) = true ∧ failed_assertions (fst out) = Some 0
   ∧ console (snd out) = [CouldNotParseSvrl])
  ∧ ∃ results st',
      validate_xml_file Samples.rule_sets Samples.disk init Samples.invoice
        [Samples.d_xsl; Samples.a_xsl] = (Validated results, st')
      ∧ map xslt_file (Doc.xslt_results results) = [Samples.d_xsl; Samples.a_xsl].
Proof.
  destruct (parse_failure_is_contained Samples.rule_sets Samples.disk init
              Samples.invoice) as (_ & Hrun & Hdoc & _).
  split.
  - destruct (Hrun init Samples.d_xsl 4
                (snd (get_compiled_xslt Samples.rule_sets Samples.disk init
                        Samples.d_xsl)) "garbled")
      as (H1 & _ & H2 & _ & _ & H3); [vm_compute; reflexivity..|].
    split; [exact H1|]. split; [exact H2|]. exact H3.
  - apply Hdoc. vm_compute. reflexivity.
Defined.

(** A stylesheet whose output does not parse, followed by one that
    reports three findings: both are run, the first counts nothing. *)
Example parse_failure_example :
  ∃ results st,
    validate_xml_file Samples.rule_sets Samples.disk init Samples.invoice
      [Samples.d_xsl; Samples.a_xsl] = (Validated results, st)
    ∧ map success (Doc.xslt_results results) = [true; true]
    ∧ map failed_assertions (Doc.xslt_results results) = [Some 0; Some 3]
    ∧ map severity_breakdown (Doc.xslt_results results) !! 0 = Some None
    ∧ console st = [CouldNotParseSvrl].
Proof. eexists _, _. split; [vm_compute; reflexivity|]. vm_compute. done. Qed.

End Containment.

(** ** The exit status of the batch mode *)

Section BatchExit.
Import Validator.



(** The batch mode after a successful generation: no samples directory
    and a samples directory without XML files both exit with 0; a
    directory with an invalid document exits with 1. *)
Example batch_exit_examples :
  let empty_dir := mkFS (files Samples.sources) ({["Samples"]} ∪ dirs Samples.sources) in
  let one_document :=
    mkFS (<["Samples/invoice.xml" := Data "<Invoice/>"]> (files Samples.sources))
         (dirs empty_dir) in
  main Samples.healthy Samples.sources None "Samples" false = 0
  ∧ main Samples.healthy empty_dir None "Samples" false = 0
  ∧ main Samples.healthy one_document None "Samples" false = 1
  ∧ main Samples.pipeline one_document None "Samples" false = 0.
Proof. vm_compute. done. Qed.

End BatchExit.

(** ** The artifact cache *)

Section ArtifactCache.
Import Transformer.





(** The cache check on concrete file systems: an unmodified source, a
    source with one byte changed, a record that cannot be read, a record
    of one line, no record, and a stale record. *)
Example needs_transformation_examples :
  let unmodified := Samples.cached (Samples.record_of "<schema id='a'/>") in
  let modified :=
    mkFS (<[Samples.a_sch := Data "<schema id='b'/>"]> (files unmodified))
         (dirs unmodified) in
  needs_transformation Samples.pipeline unmodified Samples.a_sch = Ok false
  ∧ needs_transformation Samples.pipeline modified Samples.a_sch = Ok true
  ∧ needs_transformation Samples.pipeline (Samples.cached Denied) Samples.a_sch
    = Ok true
  ∧ needs_transformation Samples.pipeline
      (Samples.cached (Data "<schema id='a'/>")) Samples.a_sch = Ok true
  ∧ needs_transformation Samples.pipeline
      (mkFS (delete ".cache/a.cache" (files unmodified)) (dirs unmodified))
      Samples.a_sch = Ok true
  ∧ needs_transformation Samples.pipeline
      (Samples.cached (Samples.record_of "0123abcd")) Samples.a_sch = Ok true.
Proof. vm_compute. done. Qed.

End ArtifactCache.

(** ** Text lemmas *)

Section Text.

Lemma app_cons c (s t : string) : String c s +:+ t = String c (s +:+ t).
Proof. reflexivity. Qed.

Lemma app_empty_l (t : string) : "" +:+ t = t.
Proof. reflexivity. Qed.

Lemma app_empty_r (s : string) : s +:+ "" = s.
Proof. induction s as [|c s IH]; [done|]. by rewrite app_cons, IH. Qed.

Lemma app_assoc_str (s t u : string) : (s +:+ t) +:+ u = s +:+ t +:+ u.
Proof. induction s as [|c s IH]; [done|]. by rewrite !app_cons, IH. Qed.

Lemma startswith_app (p r : string) : Py.startswith p (p +:+ r) = true.
Proof.
  induction p as [|c p IH]; [done|].
  rewrite app_cons. simpl. by rewrite decide_True.
Qed.

Lemma startswith_inv (p s : string) :
  Py.startswith p s = true → s = p +:+ Py.drop (String.length p) s.
Proof.
  revert s. induction p as [|c p IH]; intros s H; [done|].
  destruct s as [|d s]; [done|]. simpl in H.
  destruct (decide (c = d)) as [->|]; [|done].
  rewrite app_cons. simpl. f_equal. by apply IH.
Qed.

Lemma drop_app (p r : string) : Py.drop (String.length p) (p +:+ r) = r.
Proof. induction p as [|c p IH]; [by destruct r|]. by rewrite app_cons. Qed.

Lemma startswith_app_inv (p s r : string) :
  Py.startswith p s = true → Py.startswith p (s +:+ r) = true.
Proof.
  intros H. rewrite (startswith_inv p s H), app_assoc_str. apply startswith_app.
Qed.

Lemma contains_here (n s : string) : Py.contains n (n +:+ s) = true.
Proof.
  destruct (n +:+ s) eqn:E; simpl; rewrite <- E, startswith_app; done.
Qed.

Lemma contains_app_l (n a s : string) :
  Py.contains n s = true → Py.contains n (a +:+ s) = true.
Proof.
  intros H. induction a as [|c a IH]; [done|].
  rewrite app_cons. simpl. rewrite IH. apply orb_true_r.
Qed.

Lemma contains_inside (n a b : string) : Py.contains n (a +:+ n +:+ b) = true.
Proof. apply contains_app_l, contains_here. Qed.

Lemma contains_app_r (n s r : string) :
  Py.contains n s = true → Py.contains n (s +:+ r) = true.
Proof.
  induction s as [|c s IH].
  - simpl. rewrite orb_false_r. intros H. destruct n; [|done].
    by destruct r.
  - rewrite app_cons. cbn [Py.contains]. intros [H|H]%orb_true_iff.
    + apply (startswith_app_inv _ _ r) in H. rewrite app_cons in H.
      by rewrite H.
    + rewrite (IH H). apply orb_true_r.
Qed.

Lemma contains_cons_false n c s :
  Py.contains n (String c s) = false →
  Py.startswith n (String c s) = false ∧ Py.contains n s = false.
Proof. simpl. by intros [? ?]%orb_false_iff. Qed.

Lemma drop_last_snoc (s : string) c : Py.drop_last (s +:+ String c "") = s.
Proof.
  induction s as [|d s IH]; [done|].
  rewrite app_cons. simpl. rewrite IH.
  destruct s; reflexivity.
Qed.

End Text.

(** ** The root-tag pattern *)

Section RootTag.
Import Transformer.


Lemma until_gt_spec s m r :
  until_gt s = Some (m, r) →
  ∃ body, m = body +:+ ">" ∧ s = m +:+ r ∧ Py.contains ">" body = false.
Proof.
  revert m r. induction s as [|c s IH]; intros m r H; [done|].
  simpl in H. destruct (decide (c = ">"%char)) as [->|Hc].
  - injection H as <- <-. by exists "".
  - destruct (until_gt s) as [[m' r']|]; [|done]. injection H as <- <-.
    destruct (IH m' r' eq_refl) as (body & -> & -> & Hbody).
    exists (String c body). rewrite !app_cons. repeat split.
    cbn [Py.contains Py.startswith]. rewrite Hbody.
    rewrite decide_False by congruence. done.
Qed.

Lemma until_gt_complete body r :
  Py.contains ">" body = false →
  until_gt (body +:+ ">" +:+ r) = Some (body +:+ ">", r).
Proof.
  induction body as [|c body IH]; intros H; [done|].
  apply contains_cons_false in H as [Hc Hbody].
  rewrite !(app_cons c body). cbn [until_gt]. rewrite (IH Hbody).
  destruct (decide (c = ">"%char)) as [->|]; [|done].
  by destruct body.
Qed.

Lemma until_gt_some s :
  Py.contains ">" s = true → is_Some (until_gt s).
Proof.
  induction s as [|c s IH]; [done|].
  cbn [Py.contains Py.startswith]. simpl.
  destruct (decide (c = ">"%char)) as [->|Hc]; [by eexists|].
  rewrite decide_False by congruence. simpl.
  intros H. destruct (IH H) as [[m r] ->]. by eexists.
Qed.

Lemma match_root_at_spec s m r :
  match_root_at s = Some (m, r) →
  ∃ opening attributes,
    root_opening opening ∧ Py.contains ">" attributes = false
    ∧ m = opening +:+ attributes +:+ ">" ∧ s = m +:+ r.
Proof.
  unfold match_root_at.
  destruct (Py.startswith "<xsl:stylesheet" s) eqn:Hx.
  - destruct (until_gt _) as [[m' r']|] eqn:Hgt; cbv beta iota.
    + intros [= <- <-]. destruct (until_gt_spec _ _ _ Hgt) as (body & -> & Hs & Hbody).
      exists "<xsl:stylesheet", body. split; [by left|]. split; [done|].
      split; [done|]. rewrite (startswith_inv _ _ Hx) at 1.
      by rewrite Hs, !app_assoc_str.
    + destruct (Py.startswith "<stylesheet" s) eqn:Hs; [|done].
      apply startswith_inv in Hx, Hs. rewrite Hx in Hs. done.
  - destruct (Py.startswith "<stylesheet" s) eqn:Hp; [|done].
    destruct (until_gt _) as [[m' r']|] eqn:Hgt; [|done].
    cbv beta iota.
    intros [= <- <-]. destruct (until_gt_spec _ _ _ Hgt) as (body & -> & Hs & Hbody).
    exists "<stylesheet", body. split; [by right|]. split; [done|].
    split; [done|]. rewrite (startswith_inv _ _ Hp) at 1.
    by rewrite Hs, !app_assoc_str.
Qed.

Lemma match_root_at_opening opening rest :
  root_opening opening →
  match_root_at (opening +:+ rest)
  = match until_gt rest with
    | Some (m, r) => Some (opening +:+ m, r)
    | None => None
    end.
Proof.
  intros [->| ->]; unfold match_root_at.
  - rewrite startswith_app, drop_app.
    destruct (until_gt rest) as [[m r]|]; [done|].
    by change (Py.startswith "<stylesheet" ("<xsl:stylesheet" +:+ rest)) with false.
  - change (Py.startswith "<xsl:stylesheet" ("<stylesheet" +:+ rest)) with false.
    rewrite startswith_app, drop_app.
    by destruct (until_gt rest) as [[m r]|].
Qed.

Lemma match_root_at_complete opening attributes r :
  root_opening opening → Py.contains ">" attributes = false →
  match_root_at (opening +:+ attributes +:+ ">" +:+ r)
  = Some (opening +:+ attributes +:+ ">", r).
Proof.
  intros Ho Hattr. rewrite (match_root_at_opening _ _ Ho).
  by rewrite (until_gt_complete _ _ Hattr).
Qed.

Lemma search_root_unfold s :
  search_root s
  = match match_root_at s with
    | Some (m, r) => Some (EmptyString, m, r)
    | None =>
        match s with
        | EmptyString => None
        | String c t =>
            match search_root t with
            | Some (b, m, r) => Some (String c b, m, r)
            | None => None
            end
        end
    end.
Proof. by destruct s. Qed.

(** [search_root] finds a match, what is before it and after it, and
    there is no match starting earlier. *)
Lemma search_root_spec s b m r :
  search_root s = Some (b, m, r) →
  s = b +:+ m +:+ r
  ∧ match_root_at (m +:+ r) = Some (m, r)
  ∧ ∀ b1 b2, b = b1 +:+ b2 → b2 ≠ "" → match_root_at (b2 +:+ m +:+ r) = None.
Proof.
  revert b. induction s as [|c s IH]; intros b; rewrite search_root_unfold.
  - done.
  - destruct (match_root_at (String c s)) as [[m' r']|] eqn:Hhere.
    + intros [= <- <- <-].
      destruct (match_root_at_spec _ _ _ Hhere) as (o & a & _ & _ & _ & Hs).
      split; [done|]. split; [by rewrite <- Hs|].
      intros b1 b2 Hb Hne. by destruct b1, b2.
    + destruct (search_root s) as [[[b' m'] r']|]; [|done].
      intros [= <- <- <-].
      destruct (IH b' eq_refl) as (-> & Hm & Hfirst).
      split; [done|]. split; [done|].
      intros [|d b1] b2 Hb Hne.
      * rewrite app_empty_l in Hb. subst b2. by rewrite app_cons.
      * rewrite app_cons in Hb. injection Hb as _ Hb.
        by apply (Hfirst b1 b2).
Qed.

Lemma search_root_some before opening rest :
  root_opening opening → Py.contains ">" rest = true →
  is_Some (search_root (before +:+ opening +:+ rest)).
Proof.
  intros Ho Hgt. induction before as [|c before IH]; rewrite search_root_unfold.
  - rewrite app_empty_l, (match_root_at_opening _ _ Ho).
    destruct (until_gt_some _ Hgt) as [[m r] ->]. by eexists.
  - rewrite app_cons.
    destruct (match_root_at _) as [[m r]|]; [by eexists|].
    destruct IH as [[[b m] r] ->]. by eexists.
Qed.

End RootTag.

(** ** The namespace repair *)

Section NamespaceRepair.
Import Transformer.

Lemma replace_first_unfold old new s :
  Py.replace_first old new s
  = if Py.startswith old s then new +:+ Py.drop (String.length old) s
    else match s with
         | EmptyString => EmptyString
         | String c t => String c (Py.replace_first old new t)
         end.
Proof. by destruct s. Qed.

(** Replacing the first occurrence of the matched tag replaces the
    match itself: the tag does not occur earlier in the text. *)
Lemma replace_first_at_match s b m r new :
  search_root s = Some (b, m, r) →
  Py.replace_first m new s = b +:+ new +:+ r.
Proof.
  intros Hsearch.
  destruct (search_root_spec _ _ _ _ Hsearch) as (-> & Hm & Hfirst).
  destruct (match_root_at_spec _ _ _ Hm) as (o & a & Ho & Ha & -> & _).
  clear Hsearch Hm.
  induction b as [|c b IH]; rewrite replace_first_unfold.
  - by rewrite app_empty_l, startswith_app, drop_app.
  - destruct (Py.startswith _ _) eqn:Hstart.
    + apply startswith_inv in Hstart.
      specialize (Hfirst "" (String c b) eq_refl).
      rewrite Hstart, !app_assoc_str in Hfirst.
      rewrite (match_root_at_complete _ _ _ Ho Ha) in Hfirst.
      by discriminate Hfirst.
    + rewrite !(app_cons c b). f_equal. apply IH.
      intros b1 b2 -> Hne. by apply (Hfirst (String c b1) b2).
Qed.

Lemma xsd_declaration_attribute : xsd_declaration = xsd_attribute +:+ ">".
Proof. reflexivity. Qed.

Lemma contains_xsd_attribute (a b : string) :
  Py.contains "xmlns:xsd=" (a +:+ xsd_attribute +:+ b) = true.
Proof.
  change xsd_attribute
    with (" " +:+ "xmlns:xsd="
          +:+ String "034" ("http://www.w3.org/2001/XMLSchema" +:+ String "034" "")).
  rewrite !app_assoc_str, <- (app_assoc_str a " ").
  apply contains_inside.
Qed.

(** What the repair does to a text without the declaration. *)
Lemma repaired_content_spec content b m r :
  Py.contains "xmlns:xsd=" content = false →
  search_root content = Some (b, m, r) →
  ∃ opening attributes,
    root_opening opening ∧ Py.contains ">" attributes = false
    ∧ m = opening +:+ attributes +:+ ">"
    ∧ repaired_content content
      = Some (b +:+ opening +:+ attributes +:+ xsd_attribute +:+ ">" +:+ r).
Proof.
  intros Hnone Hsearch.
  destruct (search_root_spec _ _ _ _ Hsearch) as (_ & Hm & _).
  destruct (match_root_at_spec _ _ _ Hm) as (o & a & Ho & Ha & -> & _).
  exists o, a. repeat (split; [done|]).
  unfold repaired_content. rewrite Hnone, Hsearch.
  rewrite (replace_first_at_match _ _ _ _ _ Hsearch).
  rewrite <- (app_assoc_str o a ">"), drop_last_snoc, xsd_declaration_attribute.
  by rewrite !app_assoc_str.
Qed.

End NamespaceRepair.

(** ** Counting the declarations *)

Section Count.


Lemma count_from_none fuel sub s :
  Py.contains sub s = false → Py.count_from fuel sub s = 0.
Proof.
  revert s. induction fuel as [|fuel IH]; intros s H; [done|].
  destruct s as [|c s]; [done|].
  apply contains_cons_false in H as [Hhere Hlater].
  cbn [Py.count_from]. rewrite Hhere. by apply IH.
Qed.






End Count.

Section NamespaceRepairTheorem.
Import Transformer.



Lemma add_missing_xsd_namespace_file fs xsl_file content :
  read fs xsl_file = Ok content →
  add_missing_xsd_namespace fs xsl_file
  = match repaired_content content with
    | Some content' =>
        (true, mkFS (<[xsl_file := Data content']> (files fs)) (dirs fs))
    | None => (false, fs)
    end.
Proof.
  intros Hread. unfold add_missing_xsd_namespace. rewrite Hread.
  destruct (repaired_content content) as [content'|]; [|done].
  unfold read in Hread. unfold write.
  by destruct (files fs !! xsl_file) as [[]|].
Qed.



(** The repair on a concrete artifact, twice. *)
Example namespace_repair_example :
  let fs :=
    mkFS (<["xslt_schematron/a.xsl" :=
              Data "<xsl:stylesheet version='2.0'><xsl:stylesheet/></xsl:stylesheet>"]> ∅)
         ∅ in
  let first := add_missing_xsd_namespace fs "xslt_schematron/a.xsl" in
  let second := add_missing_xsd_namespace (snd first) "xslt_schematron/a.xsl" in
  fst first = true
  ∧ read (snd first) "xslt_schematron/a.xsl"
    = Ok ("<xsl:stylesheet version='2.0'" +:+ xsd_attribute
          +:+ "><xsl:stylesheet/></xsl:stylesheet>")
  ∧ fst second = false
  ∧ read (snd second) "xslt_schematron/a.xsl" = read (snd first) "xslt_schematron/a.xsl".
Proof. vm_compute. done. Qed.

End NamespaceRepairTheorem.

(** ** The batch leaves the rule sources alone *)

Section Frame.
Import Transformer.














End Frame.

(** ** The batch over the rule sources *)

Section Batch.
Import Transformer.





End Batch.

Section BatchTheorem.
Import Transformer.



(** Outside the loop the batch fails at once: when a requirement is
    missing and when there is no rule source. *)
Lemma batch_without_sources X fs force_rebuild :
  check_requirements fs = false ∨ glob fs schematron_dir ".sch" = [] →
  transform_all_schematron_files X fs force_rebuild = Ok (false, fs).
Proof.
  unfold transform_all_schematron_files.
  destruct (check_requirements fs); cbn [negb]; [|done].
  intros [?|Hnone]; [done|]. by rewrite Hnone.
Qed.



(** Three rule sources, the second of which fails to compile: two
    successes, one failure, result False, and the two artifacts on
    disk.  A second batch skips the two that are up to date and tries
    the failed one again. *)
Example batch_three_sources_one_failure :
  ∃ fs1 fs2,
    transform_loop Samples.pipeline false Samples.sources
      (glob Samples.sources schematron_dir ".sch") 0
    = Ok (2, [Built; Failed; Built], fs1)
    ∧ transform_all_schematron_files Samples.pipeline Samples.sources false
      = Ok (false, fs1)
    ∧ map (exists_ fs1 ∘ output_file) (glob Samples.sources schematron_dir ".sch")
      = [true; false; true]
    ∧ transform_loop Samples.pipeline false fs1 (glob fs1 schematron_dir ".sch") 0
      = Ok (2, [Skipped; Failed; Skipped], fs2).
Proof.
  eexists _, _. split; [vm_compute; reflexivity|].
  split; [vm_compute; reflexivity|].
  split; vm_compute; reflexivity.
Qed.

End BatchTheorem.

(** * Further properties *)

(** ** The severity only looks at the lowercased role and message *)

Section SeverityInputs.
Import Validator.

Lemma determine_severity_in role message test :
  _determine_severity role message test ∈ severities.
Proof.
  destruct severity_literals as (Hf & He & Hw & Hi).
  unfold _determine_severity. case_bool_decide; [done|].
  repeat case_match; done.
Qed.

(** X1. The severity is a function of the lowercased role and the
    lowercased message alone: findings whose roles and whose messages
    are equal up to letter case get the same severity, and the test
    expression never changes it. *)
Theorem severity_depends_on_lowercase role role' message message' test test' :
  Py.lower role = Py.lower role' →
  Py.lower message = Py.lower message' →
  _determine_severity role message test = _determine_severity role' message' test'.
Proof.
  intros Hrole Hmessage. unfold _determine_severity.
  rewrite Hrole, Hmessage. by repeat case_match.
Qed.

Lemma severity_depends_on_lowercase_witness :
  _determine_severity "Minor" "Value SHOULD be given" "not(a)"
  = _determine_severity "MINOR" "value should be GIVEN" "count(a) = 1".
Proof.
  apply severity_depends_on_lowercase; vm_compute; reflexivity.
Defined.

End SeverityInputs.

(** ** The severity histogram of a run *)

Section Histogram.
Import Validator.

Lemma count_severity_lookup (breakdown : gmap string nat) s k :
  s ∈ severities → (∀ j, j ∈ severities → is_Some (breakdown !! j)) →
  count_severity breakdown s !! k
  = if decide (s = k) then S <$> breakdown !! k else breakdown !! k.
Proof.
  intros Hs Hall. unfold count_severity.
  rewrite bool_decide_true by (apply elem_of_dom; by apply Hall).
  rewrite lookup_alter. by destruct (decide (s = k)) as [->|].
Qed.

(** The loop of the analyzer counts, under each of the four keys, the
    findings of that severity. *)
Lemma analyze_loop_counts (failed : list Element) breakdown details :
  (∀ j, j ∈ severities → is_Some (breakdown !! j)) →
  let out :=
    foldl (λ '(breakdown, details) assertion,
             let d := error_detail assertion in
             (count_severity breakdown (severity d), details ++ [d]))
          (breakdown, details) failed in
  dom (fst out) = dom breakdown
  ∧ ∀ k, fst out !! k
         = (λ n, n + length (filter (λ a, severity (error_detail a) = k) failed))
             <$> breakdown !! k.
Proof.
  cbv zeta. revert breakdown details.
  induction failed as [|a failed IH]; intros breakdown details Hall; cbn [foldl].
  - split; [done|]. intros k. simpl.
    destruct (breakdown !! k) as [n|]; simpl; [|done]. f_equal. lia.
  - assert (severity (error_detail a) ∈ severities) as Hs
      by apply determine_severity_in.
    assert (∀ j, j ∈ severities →
                 is_Some (count_severity breakdown (severity (error_detail a)) !! j))
      as Hall'.
    { intros j Hj. rewrite (count_severity_lookup _ _ _ Hs Hall).
      destruct (Hall j Hj) as [n Hn]. rewrite Hn. by destruct (decide _). }
    destruct (IH (count_severity breakdown (severity (error_detail a)))
                 (details ++ [error_detail a]) Hall') as [Hdom Hcount].
    split.
    + rewrite Hdom. unfold count_severity.
      rewrite bool_decide_true by (apply elem_of_dom; by apply Hall).
      apply dom_alter_L.
    + intros k. rewrite Hcount, (count_severity_lookup _ _ _ Hs Hall).
      destruct (decide (severity (error_detail a) = k)) as [Hk|Hk].
      * rewrite filter_cons_True by done.
        destruct (breakdown !! k) as [n|]; simpl; [|done]. f_equal. lia.
      * rewrite filter_cons_False by done. done.
Qed.

(** Findings that all have one of the four severities are split by
    the four filters. *)
Lemma split_by_severity {A} (f : A → string) (l : list A) :
  Forall (λ a, f a ∈ severities) l →
  sum_list (map (λ k, length (filter (λ a, f a = k) l)) severities) = length l.
Proof.
  induction 1 as [|a l Ha _ IH]; [done|].
  unfold severities in *. simpl in IH |- *.
  rewrite !elem_of_cons, elem_of_nil in Ha.
  rewrite !filter_cons.
  destruct Ha as [Ha|[Ha|[Ha|[Ha|[]]]]]; rewrite Ha;
    repeat (destruct (decide _) as [?|?]; try done); simpl; lia.
Qed.

Lemma zero_breakdown_all j : j ∈ severities → is_Some (zero_breakdown !! j).
Proof. intros Hj. rewrite (zero_breakdown_lookup j Hj). by eexists. Qed.

(** The facts about a parsed output, shared by the statements below. *)
Lemma analyze_parsed X st out result root :
  fromstring X out = Some root →
  let failed := findall root (svrl "failed-assert") in
  let r := fst (_analyze_svrl_output X st out result) in
  failed_assertions r = Some (length failed)
  ∧ snd (_analyze_svrl_output X st out result) = st
  ∧ ∃ breakdown,
      severity_breakdown r = Some breakdown
      ∧ dom breakdown = dom zero_breakdown
      ∧ (∀ k, k ∈ severities →
              breakdown !! k
              = Some (length (filter (λ a, severity (error_detail a) = k) failed)))
      ∧ histogram_sum breakdown = length failed.
Proof.
  intros Hroot. cbv zeta. unfold _analyze_svrl_output. rewrite Hroot.
  pose proof (analyze_loop_counts (findall root (svrl "failed-assert"))
                zero_breakdown [] zero_breakdown_all) as Hloop.
  cbv zeta in Hloop.
  destruct (foldl _ _ _) as [breakdown details]. cbn [fst snd] in *.
  destruct Hloop as [Hdom Hcount].
  split; [done|]. split; [done|].
  exists breakdown. cbn [severity_breakdown].
  assert (∀ k, k ∈ severities →
               breakdown !! k
               = Some (length (filter (λ a, severity (error_detail a) = k)
                                 (findall root (svrl "failed-assert"))))) as Hkeys.
  { intros k Hk. by rewrite Hcount, (zero_breakdown_lookup k Hk). }
  split; [done|]. split; [done|]. split; [done|].
  unfold histogram_sum.
  rewrite <- (split_by_severity (λ a, severity (error_detail a))
                (findall root (svrl "failed-assert")))
    by (apply Forall_forall; intros a _; apply determine_severity_in).
  f_equal. apply map_ext_in. intros k Hk%list_elem_of_In.
  by rewrite (Hkeys k Hk).
Qed.

(** X2. When the output parses, the run's histogram has exactly the
    four severity keys, each counting the findings of that severity,
    and its four counts add up to the number of failed assertions; the
    severity of every finding is a key of the histogram, so the fallback
    that counts an unknown severity as error is never taken. *)
Theorem analyzer_histogram X st out result root :
  fromstring X out = Some root →
  let failed := findall root (svrl "failed-assert") in
  let r := fst (_analyze_svrl_output X st out result) in
  failed_assertions r = Some (length failed)
  ∧ ∃ breakdown,
      severity_breakdown r = Some breakdown
      ∧ dom breakdown = list_to_set severities
      ∧ Forall (λ a, severity (error_detail a) ∈ dom breakdown) failed
      ∧ (∀ k, k ∈ severities →
              breakdown !! k
              = Some (length (filter (λ a, severity (error_detail a) = k) failed)))
      ∧ histogram_sum breakdown = length failed.
Proof.
  intros Hroot.
  destruct (analyze_parsed X st out result root Hroot)
    as (Hfailed & _ & breakdown & Hb & Hdom & Hkeys & Hsum).
  split; [done|]. exists breakdown.
  split; [done|]. split; [rewrite Hdom; by vm_compute|]. split; [|done].
  apply Forall_forall. intros a _. rewrite Hdom.
  apply elem_of_dom, zero_breakdown_all, determine_severity_in.
Qed.

Lemma analyzer_histogram_witness :
  let X := Samples.rule_sets in
  let r := fst (_analyze_svrl_output X init "three" (Samples.fresh_result "a.xsl")) in
  failed_assertions r = Some 3
  ∧ ∃ breakdown,
      severity_breakdown r = Some breakdown ∧ histogram_sum breakdown = 3.
Proof.
  intros X r.
  destruct (analyzer_histogram X init "three" (Samples.fresh_result "a.xsl")
              (Samples.report [Samples.failing "ID is required";
                               Samples.failing "Invalid code";
                               Samples.failing "Total missing"]))
    as (Hfailed & breakdown & Hb & _ & _ & _ & Hsum).
  - reflexivity.
  - split; [exact Hfailed|]. exists breakdown. split; [exact Hb|exact Hsum].
Defined.

End Histogram.

(** ** What a run does to the validator *)

Section RunEffects.
Import Validator.

Lemma grows_refl st : grows st st.
Proof. repeat split; [done|done|by exists []|by exists []]. Qed.

Lemma grows_trans st1 st2 st3 : grows st1 st2 → grows st2 st3 → grows st1 st3.
Proof.
  intros (Hc & Hh & [n Hn] & [s Hs]) (Hc' & Hh' & [n' Hn'] & [s' Hs']).
  split; [by etrans|]. split; [lia|]. split.
  - exists (n' ++ n). by rewrite Hn', Hn, app_assoc.
  - exists (s' ++ s). by rewrite Hs', Hs, app_assoc.
Qed.

Lemma same_books_trans st1 st2 st3 :
  same_books st1 st2 → same_books st2 st3 → same_books st1 st3.
Proof. intros (? & ? & ?) (? & ? & ?). repeat split; congruence. Qed.

Lemma get_compiled_xslt_effects X fs st xsl_file :
  let out := get_compiled_xslt X fs st xsl_file in
  grows st (snd out) ∧ same_books st (snd out)
  ∧ (∀ x, fst out = Some x → xslt_cache (snd out) !! xsl_file = Some x)
  ∧ (engine_calls (snd out) = engine_calls st
     ∨ engine_calls (snd out) = CompileStylesheet xsl_file :: engine_calls st
       ∧ xslt_cache st !! xsl_file = None ∧ exists_ fs xsl_file = true).
Proof.
  cbv zeta. unfold get_compiled_xslt.
  destruct (xslt_cache st !! xsl_file) as [x|] eqn:Hcache.
  { repeat split; try done; cbn; [lia|by exists []|by exists []| |by left].
    by intros ? [= <-]. }
  destruct (exists_ fs xsl_file); cbn [negb].
  - destruct (compile_stylesheet X fs xsl_file) as [x| |]; cbn.
    + repeat split; try done;
        [by apply insert_subseteq|by eexists [_]|by exists []| |by right].
      intros ? [= <-]. apply lookup_insert_eq.
    + repeat split; try done; [by eexists [_]|by eexists [_]|by right].
    + repeat split; try done; [by eexists [_]|by eexists [_]|by right].
  - repeat split; try done; [by exists []|by eexists [_]|by left].
Qed.

(** The facts about one run, shared by the statements below. *)
Lemma run_facts X fs st xml_file xsl_file :
  let out := _validate_against_xslt X fs st xml_file xsl_file in
  (success (fst out) = false ↔ is_Some (error (fst out)))
  ∧ (success (fst out) = true → is_Some (svrl_output (fst out)))
  ∧ balanced (fst out)
  ∧ grows st (snd out) ∧ same_books st (snd out)
  ∧ (∃ compiled ran,
       engine_calls (snd out) = ran ++ compiled ++ engine_calls st
       ∧ (compiled = []
          ∨ compiled = [CompileStylesheet xsl_file]
            ∧ xslt_cache st !! xsl_file = None ∧ exists_ fs xsl_file = true)
       ∧ (ran = []
          ∨ ∃ x, ran = [TransformToString x xml_file]
                 ∧ xslt_cache (snd out) !! xsl_file = Some x)
       ∧ (success (fst out) = true → ran ≠ [])).
Proof.
  cbv zeta. unfold _validate_against_xslt.
  pose proof (get_compiled_xslt_effects X fs st xsl_file) as Hget.
  cbv zeta in Hget.
  destruct (get_compiled_xslt X fs st xsl_file) as [[x|] st1];
    cbn [fst snd] in Hget; destruct Hget as (Hgrow & Hbooks & Hsome & Hcalls).
  2:{ cbn [fst snd].
      split; [split; [by eexists|done]|]. split; [done|]. split; [done|].
      split; [done|]. split; [done|].
      destruct Hcalls as [->|(-> & ? & ?)].
      - exists [], []. split; [done|]. split; [by left|]. split; [by left|done].
      - exists [CompileStylesheet xsl_file], []. split; [done|].
        split; [by right|]. split; [by left|done]. }
  specialize (Hsome x eq_refl).
  assert (grows st (call (TransformToString x xml_file) st1)) as Hgrow1.
  { eapply grows_trans; [exact Hgrow|].
    repeat split; [done|done|by eexists [_]|by exists []]. }
  assert (∃ compiled,
            engine_calls (call (TransformToString x xml_file) st1)
            = [TransformToString x xml_file] ++ compiled ++ engine_calls st
            ∧ (compiled = []
               ∨ compiled = [CompileStylesheet xsl_file]
                 ∧ xslt_cache st !! xsl_file = None ∧ exists_ fs xsl_file = true))
    as (compiled & Hran & Hcompiled).
  { destruct Hcalls as [Heq|(Heq & ? & ?)].
    - exists []. unfold call. cbn [engine_calls app]. rewrite Heq.
      split; [done|by left].
    - exists [CompileStylesheet xsl_file]. unfold call. cbn [engine_calls app].
      rewrite Heq. split; [done|by right]. }
  assert (∀ r st2, st2 = call (TransformToString x xml_file) st1 →
            ∃ compiled0 ran,
              engine_calls st2 = ran ++ compiled0 ++ engine_calls st
              ∧ (compiled0 = []
                 ∨ compiled0 = [CompileStylesheet xsl_file]
                   ∧ xslt_cache st !! xsl_file = None ∧ exists_ fs xsl_file = true)
              ∧ (ran = []
                 ∨ ∃ x0, ran = [TransformToString x0 xml_file]
                         ∧ xslt_cache st2 !! xsl_file = Some x0)
              ∧ (success r = true → ran ≠ [])) as Hshape.
  { intros r st2 ->. exists compiled, [TransformToString x xml_file].
    split; [done|]. split; [done|]. split; [|done]. right. by exists x. }
  destruct (transform_to_string X x fs xml_file) as [|output fault].
  { split; [split; [by eexists|done]|]. split; [done|]. split; [done|].
    split; [done|]. split; [done|]. by apply Hshape. }
  destruct fault.
  { split; [split; [by eexists|done]|]. split; [done|]. split; [done|].
    split; [done|]. split; [done|]. by apply Hshape. }
  unfold _analyze_svrl_output.
  destruct (fromstring X output) as [root|] eqn:Hroot.
  - destruct (analyze_parsed X (call (TransformToString x xml_file) st1) output
                (mkXsltResult xsl_file true (Some output) (Some 0) (Some 0) (Some 0)
                   None None None) root Hroot)
      as (Hfailed & _ & breakdown & Hb & _ & _ & Hsum).
    cbv zeta in Hfailed, Hb. unfold _analyze_svrl_output in Hfailed, Hb.
    rewrite Hroot in Hfailed, Hb.
    destruct (foldl _ _ _) as [breakdown' details]. cbn [fst snd] in *.
    cbn [severity_breakdown failed_assertions] in Hfailed, Hb.
    split; [split; [done|by intros [? ?]]|]. split; [by eexists|].
    split.
    { unfold balanced. cbn [severity_breakdown failed_assertions].
      injection Hb as ->. exact Hsum. }
    split; [done|]. split; [done|]. by apply Hshape.
  - cbn [fst snd].
    split; [split; [done|by intros [? ?]]|]. split; [by eexists|].
    split; [done|]. split.
    { eapply grows_trans; [exact Hgrow1|].
      repeat split; [done|done|by exists []|by eexists [_]]. }
    split; [done|].
    destruct (Hshape (mkXsltResult xsl_file true (Some output) (Some 0) (Some 0)
                        (Some 0) None None None)
                (call (TransformToString x xml_file) st1) eq_refl)
      as (c0 & ran & ? & ? & ? & ?).
    by exists c0, ran.
Qed.

End RunEffects.

(** ** What a validation does to the validator *)

Section DocumentEffects.
Import Validator.

Lemma validate_step_effects X fs xml_file d st xsl_file :
  let out := validate_step X fs xml_file (d, st) xsl_file in
  (∃ r, Doc.xslt_results (fst out) = Doc.xslt_results d ++ [r] ∧ sound_run r)
  ∧ grows st (snd out) ∧ same_books st (snd out).
Proof.
  cbv zeta. unfold validate_step.
  destruct (exists_ fs xsl_file); cbn [negb].
  - pose proof (run_facts X fs st xml_file xsl_file) as Hrun. cbv zeta in Hrun.
    destruct (_validate_against_xslt X fs st xml_file xsl_file) as [r st1].
    cbn [fst snd] in Hrun.
    destruct Hrun as (Herr & _ & Hbal & Hgrow & Hbooks & _).
    assert (sound_run r) as Hsound by done.
    clear Herr.
    destruct (success r); cbn [fst snd Doc.xslt_results];
      (split; [by exists r|done]).
  - cbn [fst snd Doc.xslt_results]. split; [|split; [apply grows_refl|done]].
    eexists. split; [done|]. split; [|done]. split; [by eexists|done].
Qed.

Lemma validate_fold_effects X fs xml_file xsl_files d st :
  let out := foldl (validate_step X fs xml_file) (d, st) xsl_files in
  (Forall sound_run (Doc.xslt_results d) →
   Forall sound_run (Doc.xslt_results (fst out)))
  ∧ grows st (snd out) ∧ same_books st (snd out).
Proof.
  cbv zeta. revert d st.
  induction xsl_files as [|xsl_file xsl_files IH]; intros d st; cbn [foldl].
  - split; [done|]. split; [apply grows_refl|done].
  - destruct (validate_step_effects X fs xml_file d st xsl_file)
      as ((r & Hres & Hsound) & Hgrow & Hbooks).
    destruct (validate_step X fs xml_file (d, st) xsl_file) as [d1 st1].
    cbn [fst snd] in *.
    destruct (IH d1 st1) as (Hall & Hgrow' & Hbooks').
    split; [|split; [by eapply grows_trans|by eapply same_books_trans]].
    intros Hd. apply Hall. rewrite Hres. apply Forall_app. split; [done|].
    by constructor.
Qed.

(** What [validate_xml_file] does to the validator for a document that
    exists. *)
Lemma validate_xml_file_effects X fs st xml_file xsl_files :
  exists_ fs xml_file = true →
  ∃ results st' report,
    validate_xml_file X fs st xml_file xsl_files = (Validated results, st')
    ∧ json_result xml_file results = Some report
    ∧ json_files st' = <[json_filename xml_file := report]> (json_files st)
    ∧ Forall sound_run (Doc.xslt_results results)
    ∧ grows st st'
    ∧ total_validations st' = S (total_validations st)
    ∧ largest_file_size st' = largest_file_size st `max` st_size fs xml_file
    ∧ map xslt_file (Doc.xslt_results results) = xsl_files
    ∧ Doc.xml_file results = xml_file
    ∧ Doc.file_size results = st_size fs xml_file.
Proof.
  intros Hex. unfold validate_xml_file. rewrite Hex. cbn [negb].
  set (st0 := mkState _ _ _ _ _ _ _).
  set (d0 := Doc.mk xml_file (st_size fs xml_file) [] true 0 0 0).
  destruct (validate_fold X fs xml_file xsl_files d0 st0)
    as (rs & Hres & Hfiles & Hshape & _ & _ & _ & _ & Hxml & Hsize).
  destruct (validate_fold_effects X fs xml_file xsl_files d0 st0)
    as (Hsound & Hgrow & Hbooks).
  destruct (foldl _ _ xsl_files) as [results st1].
  cbn [fst snd] in *. subst d0. cbn [Doc.xslt_results app] in *. subst rs.
  destruct (report_loop (Doc.xslt_results results) zero_breakdown [] Hshape)
    as (overall & entries & Hloop & _ & _).
  assert (∃ report, json_result xml_file results = Some report) as [report Hreport].
  { unfold json_result. rewrite Hloop. by eexists. }
  eexists results, _, report. split; [reflexivity|].
  unfold _create_json_result. rewrite Hreport.
  destruct Hbooks as (Hv & Hl & Hj). cbn [json_files total_validations
    largest_file_size]. subst st0. cbn in Hv, Hl, Hj.
  rewrite Hv, Hl, Hj.
  destruct Hgrow as (Hc & Hh & Hcalls & Hsaid). cbn in Hc, Hh, Hcalls, Hsaid.
  split; [done|]. split; [done|]. split; [by apply Hsound|].
  split; [by repeat split|]. by repeat split.
Qed.

End DocumentEffects.

Section DocumentTheorems.
Import Validator.

(** X3. A run succeeds exactly when its result carries no error, a
    successful run carries the raw output, and a run calls the engine
    at most twice: at most one compile call, made only on a cache miss
    for an existing file, then at most one transform call, made only
    with an executable that is in the cache afterwards; a successful
    run made the transform call. *)
Theorem run_error_and_engine_calls X fs st xml_file xsl_file :
  let out := _validate_against_xslt X fs st xml_file xsl_file in
  (success (fst out) = false ↔ is_Some (error (fst out)))
  ∧ (success (fst out) = true → is_Some (svrl_output (fst out)))
  ∧ ∃ compiled ran,
      engine_calls (snd out) = ran ++ compiled ++ engine_calls st
      ∧ (compiled = []
         ∨ compiled = [CompileStylesheet xsl_file]
           ∧ xslt_cache st !! xsl_file = None ∧ exists_ fs xsl_file = true)
      ∧ (ran = []
         ∨ ∃ x, ran = [TransformToString x xml_file]
                ∧ xslt_cache (snd out) !! xsl_file = Some x)
      ∧ (success (fst out) = true → ran ≠ []).
Proof.
  destruct (run_facts X fs st xml_file xsl_file) as (H1 & H2 & _ & _ & _ & H3).
  done.
Qed.

Lemma run_error_and_engine_calls_witness :
  let out :=
    _validate_against_xslt Samples.rule_sets Samples.disk init Samples.invoice
      Samples.a_xsl in
  success (fst out) = true ∧ error (fst out) = None
  ∧ engine_calls (snd out)
    = [TransformToString 1 Samples.invoice; CompileStylesheet Samples.a_xsl].
Proof.
  intros out. subst out.
  destruct (run_error_and_engine_calls Samples.rule_sets Samples.disk init
              Samples.invoice Samples.a_xsl) as ([_ Herr] & _ & _).
  split; [vm_compute; reflexivity|]. split; [|vm_compute; reflexivity].
  destruct (error _) as [e|]; [|reflexivity].
  pose proof (Herr (ex_intro _ e eq_refl)) as Hs.
  vm_compute in Hs. discriminate Hs.
Defined.

Lemma sum_list_add {A} (f g : A → nat) (l : list A) :
  sum_list (map (λ a, f a + g a) l) = sum_list (map f l) + sum_list (map g l).
Proof. induction l as [|a l IH]; simpl; lia. Qed.

Lemma sum_list_swap {A B} (f : A → B → nat) (ks : list A) (l : list B) :
  sum_list (map (λ k, sum_list (map (f k) l)) ks)
  = sum_list (map (λ r, sum_list (map (λ k, f k r) ks)) l).
Proof.
  induction l as [|r l IH]; simpl.
  - induction ks; simpl; [done|]. done.
  - rewrite <- IH. apply sum_list_add.
Qed.

Lemma histogram_sum_run r :
  sum_list (map (λ k, breakdown_count k r) severities)
  = histogram_sum (default ∅ (severity_breakdown r)).
Proof. done. Qed.

(** X4. In the report of a document the four counts of the overall
    histogram add up to the total of failed assertions, and in every
    per-rule-set entry the four counts add up to the failed assertions
    of the entry. *)
Theorem report_histogram_adds_up X fs st xml_file xsl_files :
  exists_ fs xml_file = true →
  ∃ results st' report,
    validate_xml_file X fs st xml_file xsl_files = (Validated results, st')
    ∧ json_files st' !! json_filename xml_file = Some report
    ∧ histogram_sum (Json.overall_severity_breakdown report)
      = Json.total_failed_assertions report
    ∧ Forall (λ entry, histogram_sum (Json.severity_breakdown entry)
                       = Json.failed_assertions entry)
        (Json.schematron_results report).
Proof.
  intros Hex.
  destruct (validate_xml_file_spec X fs st xml_file xsl_files Hex)
    as (results & st' & report & Hrun & _ & Hshape & _ & _ & Ha & _
        & Hjson & _ & _ & Hja & _ & _ & Hentries & Hoverall).
  destruct (validate_xml_file_effects X fs st xml_file xsl_files Hex)
    as (results' & st'' & report' & Hrun' & _ & _ & Hsound & _).
  rewrite Hrun in Hrun'. injection Hrun' as <- <-.
  exists results, st', report. split; [done|]. split; [done|].
  assert (Forall sound_run (successful (Doc.xslt_results results))) as Hsucc.
  { apply Forall_forall. intros r [_ Hr]%list_elem_of_filter.
    by apply (proj1 (Forall_forall _ _) Hsound). }
  split.
  - rewrite Hja, Ha. unfold histogram_sum, total.
    erewrite map_ext_in.
    2:{ intros k Hk%list_elem_of_In.
        rewrite Hoverall, (zero_breakdown_lookup k Hk). simpl. reflexivity. }
    rewrite (sum_list_swap breakdown_count). f_equal.
    apply map_ext_in. intros r Hr%list_elem_of_In.
    rewrite histogram_sum_run.
    by apply (proj1 (Forall_forall _ _) Hsucc).
  - pose proof (entries_of_runs _ _ Hshape Hentries) as Hpairs.
    clear -Hpairs Hsucc. induction Hpairs as [|r entry rs entries Hpair _ IH].
    + constructor.
    + inversion Hsucc as [|? ? [_ Hbal] Hrest]; subst.
      constructor; [|by apply IH].
      destruct Hpair as (_ & _ & -> & _ & -> & _). exact Hbal.
Qed.

Lemma report_histogram_adds_up_witness :
  ∃ results st' report,
    validate_xml_file Samples.rule_sets Samples.disk init Samples.invoice
      [Samples.a_xsl; Samples.d_xsl; Samples.c_xsl] = (Validated results, st')
    ∧ json_files st' !! json_filename Samples.invoice = Some report
    ∧ histogram_sum (Json.overall_severity_breakdown report)
      = Json.total_failed_assertions report
    ∧ Forall (λ entry, histogram_sum (Json.severity_breakdown entry)
                       = Json.failed_assertions entry)
        (Json.schematron_results report).
Proof.
  apply (report_histogram_adds_up Samples.rule_sets Samples.disk init
           Samples.invoice [Samples.a_xsl; Samples.d_xsl; Samples.c_xsl]).
  vm_compute. reflexivity.
Defined.

End DocumentTheorems.

Section StateTheorems.
Import Validator.

Lemma json_result_processed xml_file d report :
  json_result xml_file d = Some report →
  Json.total_xslt_files_processed report = length (Doc.xslt_results d)
  ∧ Json.xml_file report = xml_file
  ∧ Json.file_size_bytes report = Doc.file_size d.
Proof.
  unfold json_result. destruct (foldl _ _ _) as [[overall entries]|]; [|done].
  by intros [= <-].
Qed.

Lemma successful_all rs :
  length (successful rs) ≤ length rs
  ∧ (length (successful rs) = length rs ↔ forallb success rs = true).
Proof.
  induction rs as [|r rs [IHle IHiff]]; [done|].
  rewrite successful_cons. destruct (success r) eqn:Hs; cbn [forallb length];
    rewrite Hs; simpl.
  - split; [lia|]. rewrite <- IHiff. lia.
  - split; [lia|]. split; [lia|done].
Qed.

(** X5. The report counts every stylesheet it was given as processed,
    has one entry per successful run, hence never more entries than
    processed stylesheets, and as many exactly when the validation
    succeeded. *)
Theorem report_entries_count X fs st xml_file xsl_files :
  exists_ fs xml_file = true →
  ∃ results st' report,
    validate_xml_file X fs st xml_file xsl_files = (Validated results, st')
    ∧ json_files st' !! json_filename xml_file = Some report
    ∧ Json.total_xslt_files_processed report = length xsl_files
    ∧ length (Json.schematron_results report)
      = length (successful (Doc.xslt_results results))
    ∧ length (Json.schematron_results report)
      ≤ Json.total_xslt_files_processed report
    ∧ (length (Json.schematron_results report)
       = Json.total_xslt_files_processed report
       ↔ Json.validation_success report = true).
Proof.
  intros Hex.
  destruct (validate_xml_file_spec X fs st xml_file xsl_files Hex)
    as (results & st' & report & Hrun & Hfiles & Hshape & Hok & _ & _ & _
        & Hjson & Hjs & _ & _ & _ & _ & Hentries & _).
  destruct (validate_xml_file_effects X fs st xml_file xsl_files Hex)
    as (results' & st'' & report' & Hrun' & Hreport & Hput & _).
  rewrite Hrun in Hrun'. injection Hrun' as <- <-.
  rewrite Hput, lookup_insert_eq in Hjson. injection Hjson as ->.
  destruct (json_result_processed _ _ _ Hreport) as (Hn & _).
  assert (length (Json.schematron_results report)
          = length (successful (Doc.xslt_results results))) as Hlen.
  { by rewrite <- (length_map Some), Hentries, length_map. }
  assert (length (Doc.xslt_results results) = length xsl_files) as Hlen'
    by (by rewrite <- Hfiles, length_map).
  destruct (successful_all (Doc.xslt_results results)) as [Hle Hiff].
  exists results, st', report. split; [done|].
  split; [by rewrite Hput, lookup_insert_eq|].
  split; [congruence|]. split; [done|]. split; [lia|].
  rewrite Hjs, Hok, Hlen, Hn. exact Hiff.
Qed.

Lemma report_entries_count_witness :
  ∃ results st' report,
    validate_xml_file Samples.rule_sets Samples.disk init Samples.invoice
      [Samples.a_xsl; Samples.c_xsl; "xslt_schematron/missing.xsl"]
    = (Validated results, st')
    ∧ json_files st' !! json_filename Samples.invoice = Some report
    ∧ Json.total_xslt_files_processed report = 3
    ∧ length (Json.schematron_results report) ≤ 3.
Proof.
  destruct (report_entries_count Samples.rule_sets Samples.disk init Samples.invoice
              [Samples.a_xsl; Samples.c_xsl; "xslt_schematron/missing.xsl"])
    as (results & st' & report & H1 & H2 & H3 & _ & H4 & _).
  - vm_compute. reflexivity.
  - exists results, st', report. rewrite H3 in H4.
    split; [exact H1|]. split; [exact H2|]. split; [exact H3|exact H4].
Defined.

(** X6. A missing document is refused without touching the validator.
    For a document that exists the validation counts one validation,
    keeps the largest file size seen, writes the report of the document
    and no other report file, never removes or replaces an executable
    of the cache, never lowers the hit counter, and only adds to the
    engine calls and to the console. *)
Theorem validation_state_effects X fs st xml_file xsl_files :
  (exists_ fs xml_file = false →
     validate_xml_file X fs st xml_file xsl_files = (NotFound xml_file, st))
  ∧ (exists_ fs xml_file = true →
     ∃ results st' report,
       validate_xml_file X fs st xml_file xsl_files = (Validated results, st')
       ∧ total_validations st' = S (total_validations st)
       ∧ largest_file_size st' = largest_file_size st `max` st_size fs xml_file
       ∧ json_files st' = <[json_filename xml_file := report]> (json_files st)
       ∧ xslt_cache st ⊆ xslt_cache st'
       ∧ cache_hits st ≤ cache_hits st'
       ∧ (∃ new, engine_calls st' = new ++ engine_calls st)
       ∧ (∃ said, console st' = said ++ console st)).
Proof.
  split.
  - intros Hex. unfold validate_xml_file. by rewrite Hex.
  - intros Hex.
    destruct (validate_xml_file_effects X fs st xml_file xsl_files Hex)
      as (results & st' & report & Hrun & _ & Hput & _ & Hgrow & Hv & Hl & _).
    exists results, st', report. by destruct Hgrow as (? & ? & ? & ?).
Qed.

Lemma validation_state_effects_witness :
  let out :=
    validate_xml_file Samples.rule_sets Samples.disk init Samples.invoice
      [Samples.a_xsl] in
  total_validations (snd out) = 1
  ∧ validate_xml_file Samples.rule_sets Samples.disk (snd out) "Samples/none.xml"
      [Samples.a_xsl] = (NotFound "Samples/none.xml", snd out).
Proof.
  intros out. subst out.
  destruct (validation_state_effects Samples.rule_sets Samples.disk init
              Samples.invoice [Samples.a_xsl]) as [_ Hthere].
  destruct Hthere as (results & st' & report & Hrun & Hv & _);
    [vm_compute; reflexivity|].
  rewrite Hrun. cbn [snd]. split; [exact Hv|].
  apply (validation_state_effects Samples.rule_sets Samples.disk st'
           "Samples/none.xml" [Samples.a_xsl]).
  vm_compute. reflexivity.
Defined.

End StateTheorems.

(** ** Reuse of the compiled executables *)

Section Reuse.
Import Validator.

Lemma analyze_keeps_engine X st out result :
  let st' := snd (_analyze_svrl_output X st out result) in
  xslt_cache st' = xslt_cache st ∧ cache_hits st' = cache_hits st
  ∧ engine_calls st' = engine_calls st.
Proof.
  cbv zeta. unfold _analyze_svrl_output.
  destruct (fromstring X out); [|done]. by destruct (foldl _ _ _).
Qed.

(** A run for a stylesheet that is in the cache. *)
Lemma run_hit X fs st xml_file xsl_file x :
  xslt_cache st !! xsl_file = Some x →
  let out := _validate_against_xslt X fs st xml_file xsl_file in
  xslt_cache (snd out) = xslt_cache st
  ∧ cache_hits (snd out) = S (cache_hits st)
  ∧ engine_calls (snd out) = TransformToString x xml_file :: engine_calls st.
Proof.
  intros Hhit. cbv zeta. unfold _validate_against_xslt, get_compiled_xslt.
  rewrite Hhit.
  destruct (transform_to_string X x fs xml_file) as [|output fault]; [done|].
  destruct fault; [done|].
  match goal with
  | |- context [_analyze_svrl_output X ?s output ?r] =>
      destruct (analyze_keeps_engine X s output r) as (-> & -> & ->)
  end.
  done.
Qed.

Lemma compile_calls_cons_transform x xml_file calls :
  compile_calls (TransformToString x xml_file :: calls) = compile_calls calls.
Proof. unfold compile_calls. by rewrite filter_cons_False. Qed.

Lemma validate_step_hit X fs xml_file d st xsl_file x :
  exists_ fs xsl_file = true → xslt_cache st !! xsl_file = Some x →
  ∃ d1 st1,
    validate_step X fs xml_file (d, st) xsl_file = (d1, st1)
    ∧ xslt_cache st1 = xslt_cache st
    ∧ cache_hits st1 = S (cache_hits st)
    ∧ engine_calls st1 = TransformToString x xml_file :: engine_calls st.
Proof.
  intros Hex Hx.
  destruct (run_hit X fs st xml_file xsl_file x Hx) as (Hc & Hh & He).
  unfold validate_step. rewrite Hex. cbn [negb].
  destruct (_validate_against_xslt X fs st xml_file xsl_file) as [r st1].
  cbn [fst snd] in *. destruct (success r); by eexists _, _.
Qed.

Lemma validate_fold_hits X fs xml_file xsl_files d st :
  Forall (λ xsl_file, exists_ fs xsl_file = true
                      ∧ is_Some (xslt_cache st !! xsl_file)) xsl_files →
  let out := foldl (validate_step X fs xml_file) (d, st) xsl_files in
  xslt_cache (snd out) = xslt_cache st
  ∧ cache_hits (snd out) = cache_hits st + length xsl_files
  ∧ compile_calls (engine_calls (snd out)) = compile_calls (engine_calls st)
  ∧ length (engine_calls (snd out)) = length (engine_calls st) + length xsl_files.
Proof.
  cbv zeta. revert d st.
  induction xsl_files as [|xsl_file xsl_files IH]; intros d st Hall; cbn [foldl].
  - simpl. repeat split; lia.
  - inversion Hall as [|? ? [Hex [x Hx]] Hrest]; subst.
    destruct (validate_step_hit X fs xml_file d st xsl_file x Hex Hx)
      as (d1 & st1 & -> & Hc & Hh & He).
    destruct (IH d1 st1) as (Hc' & Hh' & Hk' & He').
    { eapply Forall_impl; [exact Hrest|]. intros p [? ?]. by rewrite Hc. }
    rewrite Hc', Hh', Hk', He', Hc, Hh, He, compile_calls_cons_transform.
    simpl. repeat split; lia.
Qed.

(** X7. When the document exists and every stylesheet of the list
    exists and is already in the cache, the validation makes no compile
    call: the cache is unchanged, the hit counter goes up by the number
    of stylesheets, and every new engine call is a transform call, one
    per stylesheet. *)
Theorem cached_stylesheets_are_not_recompiled X fs st xml_file xsl_files :
  exists_ fs xml_file = true →
  Forall (λ xsl_file, exists_ fs xsl_file = true
                      ∧ is_Some (xslt_cache st !! xsl_file)) xsl_files →
  let st' := snd (validate_xml_file X fs st xml_file xsl_files) in
  xslt_cache st' = xslt_cache st
  ∧ cache_hits st' = cache_hits st + length xsl_files
  ∧ compile_calls (engine_calls st') = compile_calls (engine_calls st)
  ∧ length (engine_calls st') = length (engine_calls st) + length xsl_files.
Proof.
  intros Hex Hall. cbv zeta. unfold validate_xml_file. rewrite Hex. cbn [negb].
  set (st0 := mkState _ _ _ _ _ _ _).
  pose proof (validate_fold_hits X fs xml_file xsl_files
                (Doc.mk xml_file (st_size fs xml_file) [] true 0 0 0) st0 Hall)
    as Hfold.
  cbv zeta in Hfold.
  destruct (foldl _ _ xsl_files) as [results st1]. cbn [fst snd] in *.
  unfold _create_json_result.
  by destruct (json_result xml_file results).
Qed.

Lemma cached_stylesheets_are_not_recompiled_witness :
  let first :=
    snd (validate_xml_file Samples.rule_sets Samples.disk init Samples.invoice
           [Samples.a_xsl; Samples.b_xsl]) in
  let second :=
    snd (validate_xml_file Samples.rule_sets Samples.disk first Samples.invoice
           [Samples.b_xsl; Samples.a_xsl]) in
  cache_hits second = cache_hits first + 2
  ∧ compile_calls (engine_calls second) = compile_calls (engine_calls first).
Proof.
  intros first second.
  destruct (cached_stylesheets_are_not_recompiled Samples.rule_sets Samples.disk
              first Samples.invoice [Samples.b_xsl; Samples.a_xsl])
    as (_ & Hhits & Hcalls & _).
  - vm_compute. reflexivity.
  - repeat constructor; try (vm_compute; reflexivity);
      apply (bool_decide_unpack _); vm_compute; exact I.
  - split; [exact Hhits|exact Hcalls].
Defined.

End Reuse.

(** ** The batch of documents and the exit status *)

Section SamplesTheorems.
Import Validator.





End SamplesTheorems.

Section ExitStatus.
Import Validator.






End ExitStatus.

(** ** The cache record, written and read back *)

Section CacheRecord.
Import Transformer.

Lemma spaceless_app (a b : string) :
  spaceless (a +:+ b) = spaceless a && spaceless b.
Proof.
  induction a as [|c a IH]; [by rewrite app_empty_l|].
  rewrite app_cons. cbn [spaceless]. rewrite IH. by rewrite andb_assoc.
Qed.











Lemma exists_file fs p node : files fs !! p = Some node → exists_ fs p = true.
Proof.
  intros Hp. unfold exists_. rewrite bool_decide_true; [done|]. by eexists.
Qed.





End CacheRecord.

(** ** What the compilation of one rule source does to the files *)

Section TransformEffects.
Import Transformer.

Lemma confined_refl ps fs : confined ps fs fs.
Proof. split; [done|]. split; [done|apply union_subseteq_r]. Qed.

Lemma confined_trans ps fs1 fs2 fs3 :
  confined ps fs1 fs2 → confined ps fs2 fs3 → confined ps fs1 fs3.
Proof.
  intros (Hf12 & Hd12 & Hd12') (Hf23 & Hd23 & Hd23'). split.
  - intros q Hq. by rewrite (Hf23 q Hq), (Hf12 q Hq).
  - split; [by etrans|]. intros d [Hd|Hd]%Hd23'%elem_of_union.
    + by apply elem_of_union_l.
    + by apply Hd12'.
Qed.

Lemma confined_weaken ps ps' fs fs' :
  ps ⊆ ps' → confined ps fs fs' → confined ps' fs fs'.
Proof.
  intros Hsub (Hf & Hd). split; [|done]. intros q Hq. apply Hf.
  intros Hin. apply Hq. by apply Hsub.
Qed.

Lemma confined_insert ps fs p node :
  p ∈ ps → confined ps fs (mkFS (<[p := node]> (files fs)) (dirs fs)).
Proof.
  intros Hp. split; [|split; [done|apply union_subseteq_r]].
  intros q Hq. cbn [files].
  apply lookup_insert_ne. by intros ->.
Qed.

Lemma confined_delete ps fs p :
  p ∈ ps → confined ps fs (mkFS (delete p (files fs)) (dirs fs)).
Proof.
  intros Hp. split; [|split; [done|apply union_subseteq_r]].
  intros q Hq. cbn [files].
  apply lookup_delete_ne. by intros ->.
Qed.

Lemma confined_mkdir ps fs d :
  d = temp_dir ∨ d = output_dir → confined ps fs (mkdir fs d).
Proof.
  intros Hd. split; [done|]. unfold mkdir. cbn [dirs].
  split; [apply union_subseteq_r|]. apply union_mono_r.
  intros d' ->%elem_of_singleton. apply elem_of_union.
  destruct Hd as [->| ->]; [left|right]; by apply elem_of_singleton.
Qed.

Lemma confined_write ps fs p c fs' :
  p ∈ ps → write fs p c = Ok fs' → confined ps fs fs'.
Proof.
  intros Hp. unfold write.
  destruct (files fs !! p) as [[]|]; intros [= <-]; by apply confined_insert.
Qed.

Lemma confined_unlink ps fs p fs' :
  p ∈ ps → unlink fs p = Ok fs' → confined ps fs fs'.
Proof.
  intros Hp. unfold unlink.
  destruct (files fs !! p); intros [= <-]; by apply confined_delete.
Qed.

Lemma confined_run ps X fs source_file xsl_file out_file :
  out_file ∈ ps →
  confined ps fs (snd (run_xslt_transformation X fs source_file xsl_file out_file)).
Proof.
  intros Hp. unfold run_xslt_transformation.
  destruct (compile_stylesheet X fs xsl_file) as [x| |];
    [|apply confined_refl..].
  destruct (transform_to_file X x fs source_file out_file) as [|[c|] fault];
    [apply confined_refl|by apply confined_insert|apply confined_refl].
Qed.

Lemma confined_repair ps fs xsl_file :
  xsl_file ∈ ps → confined ps fs (snd (add_missing_xsd_namespace fs xsl_file)).
Proof.
  intros Hp. unfold add_missing_xsd_namespace.
  destruct (read fs xsl_file) as [content|]; [|apply confined_refl].
  destruct (repaired_content content) as [content'|]; [|apply confined_refl].
  destruct (write fs xsl_file content') as [fs'|] eqn:Hw; [|apply confined_refl].
  by apply (confined_write _ _ _ _ _ Hp Hw).
Qed.

Lemma confined_save ps X fs sch_file file_hash :
  cache_file sch_file ∈ ps →
  confined ps fs (save_cache_info X fs sch_file file_hash).
Proof.
  intros Hp. unfold save_cache_info.
  destruct (write _ _ _) as [fs'|] eqn:Hw; [|apply confined_refl].
  by apply (confined_write _ _ _ _ _ Hp Hw).
Qed.

Lemma confined_remove_temp ps fs temp_file :
  temp_file ∈ ps → confined ps fs (remove_temp fs temp_file).
Proof.
  intros Hp. unfold remove_temp.
  destruct (exists_ fs temp_file); [|apply confined_refl].
  destruct (unlink fs temp_file) as [fs'|] eqn:Hu; [|apply confined_refl].
  by apply (confined_unlink _ _ _ _ Hp Hu).
Qed.

Lemma remove_temp_gone fs temp_file :
  files (remove_temp fs temp_file) !! temp_file = None.
Proof.
  unfold remove_temp, exists_, unlink.
  destruct (files fs !! temp_file) as [node|] eqn:Hfile.
  - rewrite bool_decide_true by (by eexists). cbn [orb files].
    apply lookup_delete_eq.
  - rewrite bool_decide_false by (by intros [? ?]). cbn [orb].
    by destruct (bool_decide _).
Qed.

Lemma remove_temp_other fs temp_file p :
  p ≠ temp_file → files (remove_temp fs temp_file) !! p = files fs !! p.
Proof.
  intros Hp.
  destruct (confined_remove_temp [temp_file] fs temp_file) as [Hf _];
    [apply list_elem_of_here|].
  apply Hf. by intros ->%list_elem_of_singleton.
Qed.

(** What the loop over the three intermediates leaves. *)
Lemma remove_temps fs t1 t2 t3 :
  let fs' := foldl remove_temp fs [t1; t2; t3] in
  files fs' !! t1 = None ∧ files fs' !! t2 = None ∧ files fs' !! t3 = None
  ∧ ∀ p, p ∉ [t1; t2; t3] → files fs' !! p = files fs !! p.
Proof.
  cbn [foldl].
  assert (∀ fs t p, files fs !! p = None → files (remove_temp fs t) !! p = None)
    as Hkeep.
  { intros fs0 t p Hp. destruct (decide (p = t)) as [->|Hne].
    - apply remove_temp_gone.
    - by rewrite remove_temp_other. }
  split; [by do 2 apply Hkeep; apply remove_temp_gone|].
  split; [by apply Hkeep, remove_temp_gone|].
  split; [apply remove_temp_gone|].
  intros p Hp. rewrite !remove_temp_other; [done|intros ->; apply Hp..].
  - apply list_elem_of_here.
  - apply list_elem_of_further, list_elem_of_here.
  - do 2 apply list_elem_of_further. apply list_elem_of_here.
Qed.

Lemma app_inv_head_str (a b c : string) : a +:+ b = a +:+ c → b = c.
Proof.
  induction a as [|x a IH]; [by rewrite !app_empty_l|].
  rewrite !(app_cons x a). intros [= H]. by apply IH.
Qed.

(** The intermediates, the artifact and the cache record of a source
    are five different paths. *)
Lemma written_by_NoDup sch_file : NoDup (written_by sch_file).
Proof.
  unfold written_by, temp_output, output_file, cache_file, join,
    temp_dir, output_dir, cache_dir.
  repeat (rewrite ?app_cons, ?app_empty_l).
  repeat (apply NoDup_cons; split;
          [rewrite ?elem_of_cons, elem_of_nil;
           intros Hin; repeat destruct Hin as [Hin|Hin]; try done;
           simplify_eq; by apply app_inv_head_str in Hin|]).
  apply NoDup_nil_2.
Qed.

Lemma copy2_file fs src dst fs' :
  copy2 fs src dst = Ok fs' →
  ∃ c, read fs src = Ok c ∧ files fs' !! dst = Some (Data c).
Proof.
  unfold copy2. destruct (read fs src) as [c|]; [|done].
  cbn [mbind Result_bind]. unfold write.
  destruct (files fs !! dst) as [[]|]; intros [= <-]; exists c;
    (split; [done|apply lookup_insert_eq]).
Qed.

Lemma repair_file fs xsl_file c :
  files fs !! xsl_file = Some (Data c) →
  files (snd (add_missing_xsd_namespace fs xsl_file)) !! xsl_file
  = Some (Data (default c (repaired_content c))).
Proof.
  intros Hfile.
  rewrite (add_missing_xsd_namespace_file fs xsl_file c)
    by (unfold read; by rewrite Hfile).
  destruct (repaired_content c) as [c'|]; cbn [snd files default]; [|done].
  apply lookup_insert_eq.
Qed.

(** The two ways [transform_schematron_file] ends.  It fails having
    touched at most the intermediates and the artifact.  Or it
    succeeds: the artifact then holds the text of the third
    intermediate, repaired where the repair applies, the digest of the
    source is saved, and the intermediates are removed. *)
Lemma transform_cases X fs sch_file :
  let r := transform_schematron_file X fs sch_file in
  (fst r = false ∧ confined (built_by sch_file) fs (snd r))
  ∨ ∃ fs7 c3 file_hash,
      fst r = true
      ∧ confined (built_by sch_file) fs fs7
      ∧ files fs7 !! output_file sch_file
        = Some (Data (default c3 (repaired_content c3)))
      ∧ calculate_file_hash X fs7 sch_file = Ok file_hash
      ∧ snd r = foldl remove_temp (save_cache_info X fs7 sch_file file_hash)
                  [temp_output "1" sch_file; temp_output "2" sch_file;
                   temp_output "3" sch_file].
Proof.
  assert (temp_output "1" sch_file ∈ built_by sch_file) as Hin1
    by apply list_elem_of_here.
  assert (temp_output "2" sch_file ∈ built_by sch_file) as Hin2
    by apply list_elem_of_further, list_elem_of_here.
  assert (temp_output "3" sch_file ∈ built_by sch_file) as Hin3
    by (do 2 apply list_elem_of_further; apply list_elem_of_here).
  assert (output_file sch_file ∈ built_by sch_file) as Hin4
    by (do 3 apply list_elem_of_further; apply list_elem_of_here).
  cbv zeta. unfold transform_schematron_file.
  pose proof (confined_mkdir (built_by sch_file) fs temp_dir (or_introl eq_refl))
    as H0.
  set (fs0 := mkdir fs temp_dir) in *.
  pose proof (confined_run _ X fs0 sch_file iso_dsdl_include _ Hin1) as H1.
  destruct (run_xslt_transformation X fs0 _ _ _) as [ok1 fs1]. cbn [snd] in H1.
  assert (confined (built_by sch_file) fs fs1) as H01
    by (by eapply confined_trans).
  destruct ok1; cbn [negb fst snd]; [|by left].
  pose proof (confined_run _ X fs1 (temp_output "1" sch_file)
                iso_abstract_expand _ Hin2) as H2.
  destruct (run_xslt_transformation X fs1 _ _ _) as [ok2 fs2]. cbn [snd] in H2.
  assert (confined (built_by sch_file) fs fs2) as H02
    by (by eapply confined_trans).
  destruct ok2; cbn [negb fst snd]; [|by left].
  pose proof (confined_run _ X fs2 (temp_output "2" sch_file)
                iso_svrl_for_xslt2 _ Hin3) as H3.
  destruct (run_xslt_transformation X fs2 _ _ _) as [ok3 fs3]. cbn [snd] in H3.
  assert (confined (built_by sch_file) fs fs3) as H03
    by (by eapply confined_trans).
  destruct ok3; cbn [negb fst snd]; [|by left].
  assert (∀ fs4, (if exists_ fs3 (output_file sch_file)
                  then unlink fs3 (output_file sch_file) else Ok fs3) = Ok fs4 →
                 confined (built_by sch_file) fs fs4) as H4.
  { intros fs4. destruct (exists_ fs3 (output_file sch_file)).
    - intros Hu. eapply confined_trans; [exact H03|].
      by apply (confined_unlink _ _ _ _ Hin4 Hu).
    - by intros [= <-]. }
  destruct (if exists_ fs3 (output_file sch_file) then _ else _) as [fs4|];
    [|by left].
  specialize (H4 fs4 eq_refl).
  assert (confined (built_by sch_file) fs (mkdir fs4 output_dir)) as H5.
  { eapply confined_trans; [exact H4|]. apply confined_mkdir. by right. }
  destruct (copy2 (mkdir fs4 output_dir) _ _) as [fs6|] eqn:Hcopy;
    cbn [fst snd]; [|by left].
  destruct (copy2_file _ _ _ _ Hcopy) as (c3 & Hread & Hfile).
  assert (confined (built_by sch_file) fs fs6) as H6.
  { eapply confined_trans; [exact H5|].
    unfold copy2 in Hcopy. rewrite Hread in Hcopy.
    by apply (confined_write _ _ _ _ _ Hin4 Hcopy). }
  pose proof (confined_repair _ fs6 (output_file sch_file) Hin4) as H7.
  pose proof (repair_file _ _ _ Hfile) as Hrepaired.
  set (fs7 := snd (add_missing_xsd_namespace fs6 (output_file sch_file))) in *.
  destruct (calculate_file_hash X fs7 sch_file) as [file_hash|] eqn:Hhash;
    cbn [fst snd].
  - right. exists fs7, c3, file_hash. split; [done|].
    split; [by eapply confined_trans|]. by split.
  - left. split; [done|]. by eapply confined_trans.
Qed.

End TransformEffects.

(** ** When the namespace repair applies *)

Section RepairApplies.
Import Transformer.

Lemma search_root_has_root_tag content :
  is_Some (search_root content) ↔ has_root_tag content.
Proof.
  split.
  - intros [[[b m] r] Hsearch].
    destruct (search_root_spec _ _ _ _ Hsearch) as (-> & Hm & _).
    destruct (match_root_at_spec _ _ _ Hm) as (o & a & Ho & _ & -> & _).
    exists b, o, (a +:+ ">" +:+ r). rewrite !app_assoc_str.
    split; [done|]. split; [done|]. apply contains_inside.
  - intros (before & opening & rest & -> & Ho & Hgt).
    by apply search_root_some.
Qed.

Lemma repaired_content_applies content :
  is_Some (repaired_content content)
  ↔ Py.contains "xmlns:xsd=" content = false ∧ has_root_tag content.
Proof.
  rewrite <- search_root_has_root_tag. unfold repaired_content.
  destruct (Py.contains "xmlns:xsd=" content).
  - split; [by intros [? ?]|by intros [? _]].
  - destruct (search_root content) as [[[b m] r]|].
    + split; [by intros _; split; [|eexists]|by intros _; eexists].
    + split; [by intros [? ?]|by intros [_ [? ?]]].
Qed.

Lemma repaired_content_declares content content' :
  repaired_content content = Some content' →
  Py.contains "xmlns:xsd=" content' = true.
Proof.
  intros Hrep.
  destruct (proj1 (repaired_content_applies content)) as [Hnone Hroot];
    [by eexists|].
  apply search_root_has_root_tag in Hroot as [[[b m] r] Hsearch].
  destruct (repaired_content_spec content b m r Hnone Hsearch)
    as (o & a & _ & _ & _ & Hrepaired).
  rewrite Hrepaired in Hrep. injection Hrep as <-.
  rewrite <- (app_assoc_str o a), <- (app_assoc_str b (o +:+ a)).
  apply contains_xsd_attribute.
Qed.

(** X11. [add_missing_xsd_namespace] returns True exactly when the
    file can be read, declares no [xmlns:xsd] and has a root opening
    tag; the file then declares it, and every other file is as it was.
    When it returns False (an unreadable or missing file, a declaration
    already there, no root tag) the file system is unchanged. *)
Theorem namespace_repair_applies fs xsl_file :
  let r := add_missing_xsd_namespace fs xsl_file in
  (fst r = true
   ↔ ∃ content, read fs xsl_file = Ok content
                ∧ Py.contains "xmlns:xsd=" content = false
                ∧ has_root_tag content)
  ∧ (fst r = true →
     (∃ content', read (snd r) xsl_file = Ok content'
                  ∧ Py.contains "xmlns:xsd=" content' = true)
     ∧ dirs (snd r) = dirs fs
     ∧ ∀ p, p ≠ xsl_file → files (snd r) !! p = files fs !! p)
  ∧ (fst r = false → snd r = fs).
Proof.
  cbv zeta. destruct (read fs xsl_file) as [content|] eqn:Hread.
  - rewrite (add_missing_xsd_namespace_file _ _ _ Hread).
    pose proof (repaired_content_applies content) as Happlies.
    destruct (repaired_content content) as [content'|] eqn:Hrep; cbn [fst snd].
    + split; [|split; [|done]].
      * split; [|done]. intros _. exists content. split; [done|].
        apply Happlies. by eexists.
      * intros _. split; [|split; [done|]].
        -- exists content'. split; [|by eapply repaired_content_declares].
           unfold read. cbn [files]. by rewrite lookup_insert_eq.
        -- intros p Hp. cbn [files]. by apply lookup_insert_ne.
    + split; [|done]. split; [done|].
      intros (content0 & [= <-] & Hnone & Hroot).
      by destruct (proj2 Happlies (conj Hnone Hroot)).
  - unfold add_missing_xsd_namespace. rewrite Hread. cbn [fst snd].
    split; [|done]. split; [done|]. by intros (? & [=] & _).
Qed.

Lemma namespace_repair_applies_witness :
  fst (add_missing_xsd_namespace MoreSamples.stylesheets "xslt_schematron/a.xsl")
  = true
  ∧ add_missing_xsd_namespace MoreSamples.stylesheets "xslt_schematron/b.xsl"
    = (false, MoreSamples.stylesheets)
  ∧ add_missing_xsd_namespace MoreSamples.stylesheets "xslt_schematron/c.xsl"
    = (false, MoreSamples.stylesheets).
Proof.
  split; [|split].
  - apply (proj1 (namespace_repair_applies MoreSamples.stylesheets
                    "xslt_schematron/a.xsl")).
    eexists. split; [reflexivity|]. split; [reflexivity|].
    exists "", "<xsl:stylesheet",
      " version='2.0'><xsl:template/></xsl:stylesheet>".
    split; [reflexivity|]. split; [by left|reflexivity].
  - pose proof (proj2 (proj2 (namespace_repair_applies MoreSamples.stylesheets
                                "xslt_schematron/b.xsl"))) as Hsame.
    cbv zeta in Hsame.
    destruct (add_missing_xsd_namespace _ _) as [[] fs'] eqn:Hrun;
      [vm_compute in Hrun; discriminate Hrun|].
    cbn [fst snd] in Hsame. by rewrite (Hsame eq_refl).
  - pose proof (proj2 (proj2 (namespace_repair_applies MoreSamples.stylesheets
                                "xslt_schematron/c.xsl"))) as Hsame.
    cbv zeta in Hsame.
    destruct (add_missing_xsd_namespace _ _) as [[] fs'] eqn:Hrun;
      [vm_compute in Hrun; discriminate Hrun|].
    cbn [fst snd] in Hsame. by rewrite (Hsame eq_refl).
Defined.

End RepairApplies.

(** ** The compilation of one rule source *)

Section BuildTheorems.
Import Transformer.

Lemma built_by_written_by sch_file : built_by sch_file ⊆ written_by sch_file.
Proof.
  intros p Hp. change (written_by sch_file)
    with (built_by sch_file ++ [cache_file sch_file]).
  apply elem_of_app. by left.
Qed.

Lemma cache_file_written sch_file : cache_file sch_file ∈ written_by sch_file.
Proof. do 4 apply list_elem_of_further. apply list_elem_of_here. Qed.

Lemma cache_file_not_built sch_file : cache_file sch_file ∉ built_by sch_file.
Proof.
  pose proof (written_by_NoDup sch_file) as Hnodup.
  change (written_by sch_file)
    with (built_by sch_file ++ [cache_file sch_file]) in Hnodup.
  apply NoDup_app in Hnodup as (_ & Hdisjoint & _).
  intros Hin. apply (Hdisjoint _ Hin), list_elem_of_here.
Qed.

Lemma output_file_not_temp sch_file :
  output_file sch_file
  ∉ [temp_output "1" sch_file; temp_output "2" sch_file; temp_output "3" sch_file].
Proof.
  pose proof (written_by_NoDup sch_file) as Hnodup.
  change (written_by sch_file)
    with ([temp_output "1" sch_file; temp_output "2" sch_file;
           temp_output "3" sch_file]
          ++ [output_file sch_file; cache_file sch_file]) in Hnodup.
  apply NoDup_app in Hnodup as (_ & Hdisjoint & _).
  intros Hin. apply (Hdisjoint _ Hin), list_elem_of_here.
Qed.


Lemma temps_written sch_file p :
  p ∈ [temp_output "1" sch_file; temp_output "2" sch_file; temp_output "3" sch_file] →
  p ∈ written_by sch_file.
Proof.
  intros Hin. change (written_by sch_file)
    with ([temp_output "1" sch_file; temp_output "2" sch_file;
           temp_output "3" sch_file]
          ++ [output_file sch_file; cache_file sch_file]).
  apply elem_of_app. by left.
Qed.

Lemma confined_remove_temps ps fs ts :
  (∀ t, t ∈ ts → t ∈ ps) → confined ps fs (foldl remove_temp fs ts).
Proof.
  revert fs. induction ts as [|t ts IH]; intros fs Hts; cbn [foldl].
  - apply confined_refl.
  - eapply confined_trans.
    + apply (confined_remove_temp ps fs t), Hts, list_elem_of_here.
    + apply IH. intros t' Ht'. by apply Hts, list_elem_of_further.
Qed.

(** A rule source under the rule-source directory is none of the files
    that its compilation writes. *)
Lemma source_not_written sch_file :
  Py.startswith (schematron_dir +:+ "/") sch_file = true →
  sch_file ∉ written_by sch_file.
Proof.
  intros Hunder Hin. unfold written_by in Hin.
  rewrite !elem_of_cons, elem_of_nil in Hin.
  assert (∀ p, outside p → sch_file = p → False) as Hne
    by (intros p Hp ->; unfold outside in Hp; congruence).
  destruct Hin as [H|[H|[H|[H|[H|[]]]]]];
    refine (Hne _ _ H); reflexivity.
Qed.

(** X12. Whatever [transform_schematron_file] returns, every file
    other than the three intermediates, the artifact and the cache
    record of its source is as it was, no directory is removed and at
    most the scratch and the output directory are created.  When it
    returns False the cache record is as it was, too. *)
Theorem compilation_touches_only_its_own_files X fs sch_file :
  let r := transform_schematron_file X fs sch_file in
  (∀ p, p ∉ written_by sch_file → files (snd r) !! p = files fs !! p)
  ∧ dirs fs ⊆ dirs (snd r)
  ∧ dirs (snd r) ⊆ {[temp_dir; output_dir]} ∪ dirs fs
  ∧ (fst r = false →
     files (snd r) !! cache_file sch_file = files fs !! cache_file sch_file).
Proof.
  cbv zeta.
  destruct (transform_cases X fs sch_file)
    as [[Hfailed Hframe]|(fs7 & c3 & file_hash & Hbuilt & Hframe & _ & _ & ->)].
  - destruct (confined_weaken _ _ _ _ (built_by_written_by sch_file) Hframe)
      as (Hfiles & Hsub & Hsup).
    repeat (split; [done|]). intros _.
    apply (proj1 Hframe), cache_file_not_built.
  - assert (confined (written_by sch_file) fs
              (foldl remove_temp (save_cache_info X fs7 sch_file file_hash)
                 [temp_output "1" sch_file; temp_output "2" sch_file;
                  temp_output "3" sch_file])) as (Hfiles & Hsub & Hsup).
    { eapply confined_trans;
        [exact (confined_weaken _ _ _ _ (built_by_written_by sch_file) Hframe)|].
      eapply confined_trans;
        [apply confined_save, cache_file_written|].
      apply confined_remove_temps, temps_written. }
    repeat (split; [done|]). by rewrite Hbuilt.
Qed.

Lemma compilation_touches_only_its_own_files_witness :
  let r := transform_schematron_file Samples.pipeline
             (Samples.cached (Samples.record_of "old")) Samples.a_sch in
  fst r = false
  ∧ files (snd r) !! cache_file Samples.a_sch = Some (Samples.record_of "old")
  ∧ files (snd r) !! Samples.a_sch = Some (Data "<schema id='a'/>").
Proof.
  destruct (compilation_touches_only_its_own_files Samples.pipeline
              (Samples.cached (Samples.record_of "old")) Samples.a_sch)
    as (Hfiles & _ & _ & Hcache).
  cbv zeta. split; [reflexivity|]. split.
  - rewrite (Hcache eq_refl). reflexivity.
  - rewrite Hfiles; [reflexivity|].
    apply source_not_written. reflexivity.
Defined.

(** X13. When [transform_schematron_file] returns True, the artifact
    is a readable file which declares [xmlns:xsd] or has no root
    opening tag, so that a further repair changes nothing; and none of
    the three intermediates is left. *)
Theorem built_artifact X fs sch_file fs' :
  transform_schematron_file X fs sch_file = (true, fs') →
  (∃ content,
     read fs' (output_file sch_file) = Ok content
     ∧ (Py.contains "xmlns:xsd=" content = true ∨ ¬ has_root_tag content)
     ∧ add_missing_xsd_namespace fs' (output_file sch_file) = (false, fs'))
  ∧ Forall (λ t, files fs' !! t = None)
      [temp_output "1" sch_file; temp_output "2" sch_file;
       temp_output "3" sch_file].
Proof.
  intros Hrun.
  destruct (transform_cases X fs sch_file)
    as [[Hfailed _]|(fs7 & c3 & file_hash & _ & _ & Hout & _ & Hend)];
    rewrite Hrun in *; [done|]. cbn [snd] in Hend. subst fs'.
  destruct (remove_temps (save_cache_info X fs7 sch_file file_hash)
              (temp_output "1" sch_file) (temp_output "2" sch_file)
              (temp_output "3" sch_file)) as (H1 & H2 & H3 & Hother).
  split; [|by repeat constructor].
  set (content := default c3 (repaired_content c3)) in *.
  assert (repaired_content content = None) as Hdone.
  { unfold content. destruct (repaired_content c3) as [c'|] eqn:Hrep; [|done].
    change (repaired_content c' = None). unfold repaired_content.
    by rewrite (repaired_content_declares _ _ Hrep). }
  assert (read (foldl remove_temp (save_cache_info X fs7 sch_file file_hash)
                  [temp_output "1" sch_file; temp_output "2" sch_file;
                   temp_output "3" sch_file]) (output_file sch_file)
          = Ok content) as Hread.
  { unfold read. rewrite (Hother _ (output_file_not_temp sch_file)).
    destruct (confined_save [cache_file sch_file] X fs7 sch_file file_hash)
      as [Hsave _]; [apply list_elem_of_here|].
    rewrite Hsave, Hout; [done|].
    intros Heq%list_elem_of_singleton.
    apply (cache_file_not_built sch_file). rewrite <- Heq.
    do 3 apply list_elem_of_further. apply list_elem_of_here. }
  exists content. split; [done|]. split.
  - destruct (Py.contains "xmlns:xsd=" content) eqn:Hdecl; [by left|]. right.
    intros Hroot.
    destruct (proj2 (repaired_content_applies content) (conj Hdecl Hroot))
      as [? Hsome].
    by rewrite Hdone in Hsome.
  - rewrite (add_missing_xsd_namespace_file _ _ _ Hread). by rewrite Hdone.
Qed.

Lemma built_artifact_witness :
  ∃ fs' content,
    transform_schematron_file Samples.healthy Samples.sources Samples.a_sch
    = (true, fs')
    ∧ read fs' (output_file Samples.a_sch) = Ok content
    ∧ Py.contains "xmlns:xsd=" content = true.
Proof.
  destruct (transform_schematron_file Samples.healthy Samples.sources Samples.a_sch)
    as [[] fs'] eqn:Hrun; [|vm_compute in Hrun; discriminate Hrun].
  destruct (built_artifact _ _ _ _ Hrun) as ((content & Hread & _ & _) & _).
  exists fs', content. split; [reflexivity|]. split; [exact Hread|].
  vm_compute in Hrun. injection Hrun as <-. vm_compute in Hread.
  injection Hread as <-. reflexivity.
Defined.

End BuildTheorems.

(** ** A built source is up to date *)

Section UpToDate.
Import Transformer.




End UpToDate.

(** ** A batch over sources that are up to date *)

Section UpToDateBatch.
Import Transformer.




End UpToDateBatch.

(** ** The check of a built stylesheet *)

Section OutputCheck.
Import Transformer.

Lemma count_from_some fuel sub s :
  sub ≠ "" → Py.contains sub s = true → String.length s ≤ fuel →
  0 < Py.count_from fuel sub s.
Proof.
  intros Hsub. revert s. induction fuel as [|fuel IH]; intros s Hin Hlen.
  - destruct s; [|simpl in Hlen; lia]. by destruct sub.
  - destruct s as [|c s]; [by destruct sub|].
    cbn [Py.count_from]. cbn [Py.contains] in Hin.
    destruct (Py.startswith sub (String c s)); [lia|].
    apply IH; [done|]. simpl in Hlen. lia.
Qed.

Lemma count_zero sub s :
  sub ≠ "" → (Py.count sub s =? 0) = negb (Py.contains sub s).
Proof.
  intros Hsub. unfold Py.count. destruct (Py.contains sub s) eqn:Hin.
  - apply Nat.eqb_neq.
    pose proof (count_from_some (String.length s) sub s Hsub Hin). lia.
  - by rewrite count_from_none.
Qed.

(** X16. [validate_output] returns True exactly when the artifact of
    the source is a readable file whose text has one of the two root
    openings and at least one [<xsl:template]; a missing or unreadable
    artifact gives False. *)
Theorem validate_output_iff fs sch_file :
  validate_output fs sch_file = true
  ↔ ∃ content,
      read fs (output_file sch_file) = Ok content
      ∧ (Py.contains "<xsl:stylesheet" content = true
         ∨ Py.contains "<stylesheet" content = true)
      ∧ 0 < Py.count "<xsl:template" content
      ∧ Py.contains "<xsl:template" content = true.
Proof.
  unfold validate_output.
  destruct (read fs (output_file sch_file)) as [content|] eqn:Hread.
  - assert (exists_ fs (output_file sch_file) = true) as ->.
    { unfold read in Hread.
      destruct (files fs !! output_file sch_file) as [node|] eqn:Hfile; [|done].
      by eapply exists_file. }
    cbn [negb].
    assert ((Py.count "<xsl:template" content =? 0)
            = negb (Py.contains "<xsl:template" content)) as Hcount
      by (by apply count_zero).
    rewrite Hcount. split.
    + intros Hv. exists content. split; [done|].
      destruct (Py.contains "<xsl:stylesheet" content);
        destruct (Py.contains "<stylesheet" content); cbn [negb andb] in Hv;
        try done;
        (destruct (Py.contains "<xsl:template" content); [|done]);
        (split; [by auto|]); (split; [|done]);
        apply Nat.eqb_neq in Hcount; lia.
    + intros (c & [= <-] & Hroot & _ & Htemplate). rewrite Htemplate.
      destruct Hroot as [-> | ->]; [done|]. cbn [negb].
      by rewrite andb_false_r.
  - destruct (exists_ fs (output_file sch_file)); cbn [negb];
      (split; [done|by intros (? & [=] & _)]).
Qed.

Lemma validate_output_iff_witness :
  validate_output MoreSamples.stylesheets "Schematron/a.sch" = true
  ∧ validate_output MoreSamples.stylesheets "Schematron/b.sch" = false
  ∧ validate_output MoreSamples.stylesheets "Schematron/c.sch" = false.
Proof.
  split; [|split; reflexivity].
  apply (validate_output_iff MoreSamples.stylesheets "Schematron/a.sch").
  eexists. split; [reflexivity|]. split; [by left|]. split; [|reflexivity].
  vm_compute. lia.
Defined.

End OutputCheck.

(** ** The command line of the transformer *)

Section CommandLine.
Import Transformer.










End CommandLine.
